(** * Vantige TypeScript SDK: a shallow embedding and its verified properties

    The development follows the layout of the SDK:
    - [JS]        the JavaScript primitives the SDK relies on (strings as
                  sequences of UTF-16 code units, truthiness, [substring],
                  [trim], [startsWith], ...);
    - [Errors]    [src/types/errors.ts]: the error enumeration, the default
                  messages, [createVantigeError] and [VantigeSDKError.toJSON];
    - [Auth]      [src/auth/index.ts]: [VantigeAuth];
    - [Http]      [src/client/http-client.ts]: [handleError],
                  [executeWithRetry], [get], [post];
    - [Client]    [src/client/vantige-client.ts]: [listKnowledgeBases],
                  [query].
    Theorems come after the definitions. *)

From Stdlib Require Import ZArith NArith List String Ascii Bool Lia.
From Stdlib Require Import DecimalString.
Import ListNotations.

Set Implicit Arguments.
Set Warnings "-register-all".

(* ================================================================== *)
(** * JavaScript primitives *)
(* ================================================================== *)

Module JS.

(** A JavaScript string is a finite sequence of UTF-16 code units;
    [s.length] is the number of code units. *)
Definition jsstring : Type := list N.

(** String literals of the source, read one code unit per character. *)
Definition js (s : string) : jsstring :=
  List.map N_of_ascii (list_ascii_of_string s).
Arguments js s%_string.

Definition jslength (s : jsstring) : Z := Z.of_nat (List.length s).

Fixpoint str_eqb (a b : jsstring) : bool :=
  match a, b with
  | [], [] => true
  | x :: a', y :: b' => N.eqb x y && str_eqb a' b'
  | _, _ => false
  end.

(** [s.startsWith(p)] *)
Fixpoint startsWith (s p : jsstring) : bool :=
  match p, s with
  | [], _ => true
  | c :: p', d :: s' => N.eqb c d && startsWith s' p'
  | _ :: _, [] => false
  end.

(** What is left of [s] after the prefix [p], when [s] starts with [p]. *)
Fixpoint stripPrefix (p s : jsstring) : option jsstring :=
  match p, s with
  | [], _ => Some s
  | c :: p', d :: s' => if N.eqb c d then stripPrefix p' s' else None
  | _ :: _, [] => None
  end.

(** [s.substring(start, end)]: both indices are clamped to [0, length] and
    swapped when [start > end]. *)
Definition clamp (len i : Z) : Z := Z.max 0 (Z.min i len).

Definition substring (s : jsstring) (start stop : Z) : jsstring :=
  let len := jslength s in
  let a := clamp len start in
  let b := clamp len stop in
  let lo := Z.min a b in
  let hi := Z.max a b in
  firstn (Z.to_nat (hi - lo)) (skipn (Z.to_nat lo) s).

(** [s.substring(start)]: the end index defaults to the length. *)
Definition substringFrom (s : jsstring) (start : Z) : jsstring :=
  substring s start (jslength s).

(** [s.repeat(n)] for [n >= 0] (a negative count raises a RangeError; the
    SDK only calls it with [length - 12] after checking [length >= 12]). *)
Definition repeatStr (s : jsstring) (n : Z) : jsstring :=
  List.concat (List.repeat s (Z.to_nat n)).

(** WhiteSpace and LineTerminator code units, the ones [trim] strips. *)
Definition isWhiteSpace (c : N) : bool :=
  ((9 <=? c) && (c <=? 13) || (c =? 32) || (c =? 160) || (c =? 5760)
   || (8192 <=? c) && (c <=? 8202)
   || (c =? 8232) || (c =? 8233) || (c =? 8239) || (c =? 8287)
   || (c =? 12288) || (c =? 65279))%N.

Fixpoint trimStart (s : jsstring) : jsstring :=
  match s with
  | c :: s' => if isWhiteSpace c then trimStart s' else s
  | [] => []
  end.

Definition trimEnd (s : jsstring) : jsstring := rev (trimStart (rev s)).

(** [s.trim()] *)
Definition trim (s : jsstring) : jsstring := trimEnd (trimStart s).

Definition isAlnum (c : N) : bool :=
  ((48 <=? c) && (c <=? 57) || (65 <=? c) && (c <=? 90)
   || (97 <=? c) && (c <=? 122))%N.

(** [n.toString()] for an integral number (decimal digits, a leading [-]
    for negatives; JavaScript switches to exponent notation from 1e21 on,
    which no page number reaches). *)
Definition numberToString (n : Z) : jsstring :=
  js (NilEmpty.string_of_int (Z.to_int n)).

Definition boolToString (b : bool) : jsstring :=
  if b then js "true" else js "false".

(** The values that flow through the SDK's [any]-typed positions. *)
Inductive value : Type :=
| JUndefined
| JNull
| JBool (b : bool)
| JNum (n : Z)
| JStr (s : jsstring)
| JArr (items : list value)
| JObj (fields : list (jsstring * value)).

(** ToBoolean *)
Definition truthy (v : value) : bool :=
  match v with
  | JUndefined | JNull => false
  | JBool b => b
  | JNum n => negb (n =? 0)%Z
  | JStr s => match s with [] => false | _ => true end
  | JArr _ | JObj _ => true
  end.

Definition isArray (v : value) : bool :=
  match v with JArr _ => true | _ => false end.

Fixpoint lookup (k : jsstring) (fields : list (jsstring * value)) : value :=
  match fields with
  | [] => JUndefined
  | (k', v) :: rest => if str_eqb k k' then v else lookup k rest
  end.

(** [v?.k]: a property read that yields [undefined] on values without
    that own property. *)
Definition prop (v : value) (k : jsstring) : value :=
  match v with
  | JObj fields => lookup k fields
  | _ => JUndefined
  end.

(** An optional string ([string | undefined]); the empty string and
    [undefined] are the falsy ones. *)
Definition strTruthy (s : option jsstring) : bool :=
  match s with
  | Some (_ :: _) => true
  | _ => false
  end.

(** [a || b] on optional strings. *)
Definition orStr (a b : option jsstring) : option jsstring :=
  if strTruthy a then a else b.

End JS.

Import JS.

(* ================================================================== *)
(** * Error taxonomy ([src/types/errors.ts]) *)
(* ================================================================== *)

Module Errors.

Inductive VantigeErrorCode : Type :=
(* Authentication Errors *)
| INVALID_API_KEY
| EXPIRED_API_KEY
| INSUFFICIENT_PERMISSIONS
| RATE_LIMIT_EXCEEDED
(* Knowledge Base Errors *)
| KNOWLEDGE_BASE_NOT_FOUND
| KNOWLEDGE_BASE_ACCESS_DENIED
| KNOWLEDGE_BASE_CREATION_FAILED
| KNOWLEDGE_BASE_IMPORT_FAILED
(* Query Errors *)
| INVALID_QUERY
| QUERY_TOO_LONG
| NO_RESULTS_FOUND
| QUERY_TIMEOUT
(* Document Errors *)
| DOCUMENT_NOT_FOUND
| DOCUMENT_UPLOAD_FAILED
| UNSUPPORTED_FILE_TYPE
| FILE_TOO_LARGE
| DOCUMENT_PROCESSING_FAILED
(* Chat Errors *)
| CHAT_SESSION_NOT_FOUND
| CHAT_SESSION_EXPIRED
| INVALID_CHAT_MESSAGE
(* Network Errors *)
| NETWORK_ERROR
| REQUEST_TIMEOUT
| SERVICE_UNAVAILABLE
(* Validation Errors *)
| VALIDATION_ERROR
| MISSING_REQUIRED_FIELD
| INVALID_FIELD_VALUE
(* Server Errors *)
| INTERNAL_SERVER_ERROR
| SERVICE_TEMPORARILY_UNAVAILABLE
(* SDK Errors *)
| SDK_INITIALIZATION_ERROR
| UNSUPPORTED_OPERATION
| CONFIGURATION_ERROR.

Definition code_eqb (a b : VantigeErrorCode) : bool :=
  match a, b with
  | INVALID_API_KEY, INVALID_API_KEY
  | EXPIRED_API_KEY, EXPIRED_API_KEY
  | INSUFFICIENT_PERMISSIONS, INSUFFICIENT_PERMISSIONS
  | RATE_LIMIT_EXCEEDED, RATE_LIMIT_EXCEEDED
  | KNOWLEDGE_BASE_NOT_FOUND, KNOWLEDGE_BASE_NOT_FOUND
  | KNOWLEDGE_BASE_ACCESS_DENIED, KNOWLEDGE_BASE_ACCESS_DENIED
  | KNOWLEDGE_BASE_CREATION_FAILED, KNOWLEDGE_BASE_CREATION_FAILED
  | KNOWLEDGE_BASE_IMPORT_FAILED, KNOWLEDGE_BASE_IMPORT_FAILED
  | INVALID_QUERY, INVALID_QUERY
  | QUERY_TOO_LONG, QUERY_TOO_LONG
  | NO_RESULTS_FOUND, NO_RESULTS_FOUND
  | QUERY_TIMEOUT, QUERY_TIMEOUT
  | DOCUMENT_NOT_FOUND, DOCUMENT_NOT_FOUND
  | DOCUMENT_UPLOAD_FAILED, DOCUMENT_UPLOAD_FAILED
  | UNSUPPORTED_FILE_TYPE, UNSUPPORTED_FILE_TYPE
  | FILE_TOO_LARGE, FILE_TOO_LARGE
  | DOCUMENT_PROCESSING_FAILED, DOCUMENT_PROCESSING_FAILED
  | CHAT_SESSION_NOT_FOUND, CHAT_SESSION_NOT_FOUND
  | CHAT_SESSION_EXPIRED, CHAT_SESSION_EXPIRED
  | INVALID_CHAT_MESSAGE, INVALID_CHAT_MESSAGE
  | NETWORK_ERROR, NETWORK_ERROR
  | REQUEST_TIMEOUT, REQUEST_TIMEOUT
  | SERVICE_UNAVAILABLE, SERVICE_UNAVAILABLE
  | VALIDATION_ERROR, VALIDATION_ERROR
  | MISSING_REQUIRED_FIELD, MISSING_REQUIRED_FIELD
  | INVALID_FIELD_VALUE, INVALID_FIELD_VALUE
  | INTERNAL_SERVER_ERROR, INTERNAL_SERVER_ERROR
  | SERVICE_TEMPORARILY_UNAVAILABLE, SERVICE_TEMPORARILY_UNAVAILABLE
  | SDK_INITIALIZATION_ERROR, SDK_INITIALIZATION_ERROR
  | UNSUPPORTED_OPERATION, UNSUPPORTED_OPERATION
  | CONFIGURATION_ERROR, CONFIGURATION_ERROR => true
  | _, _ => false
  end.

Definition ErrorMessages (code : VantigeErrorCode) : jsstring :=
  match code with
  | INVALID_API_KEY => js "The provided API key is invalid or malformed"
  | EXPIRED_API_KEY => js "The API key has expired"
  | INSUFFICIENT_PERMISSIONS =>
      js "Insufficient permissions. This API key may not have the required scope for this operation"
  | RATE_LIMIT_EXCEEDED => js "Rate limit exceeded. Please try again later"
  | KNOWLEDGE_BASE_NOT_FOUND => js "Knowledge base not found"
  | KNOWLEDGE_BASE_ACCESS_DENIED => js "Access denied to knowledge base"
  | KNOWLEDGE_BASE_CREATION_FAILED => js "Failed to create knowledge base"
  | KNOWLEDGE_BASE_IMPORT_FAILED =>
      js "Failed to import data into knowledge base"
  | INVALID_QUERY => js "The query is invalid or malformed"
  | QUERY_TOO_LONG => js "Query exceeds maximum length limit"
  | NO_RESULTS_FOUND => js "No results found for the query"
  | QUERY_TIMEOUT => js "Query timed out"
  | DOCUMENT_NOT_FOUND => js "Document not found"
  | DOCUMENT_UPLOAD_FAILED => js "Document upload failed"
  | UNSUPPORTED_FILE_TYPE => js "Unsupported file type"
  | FILE_TOO_LARGE => js "File size exceeds maximum limit"
  | DOCUMENT_PROCESSING_FAILED => js "Document processing failed"
  | CHAT_SESSION_NOT_FOUND => js "Chat session not found"
  | CHAT_SESSION_EXPIRED => js "Chat session has expired"
  | INVALID_CHAT_MESSAGE => js "Invalid chat message format"
  | NETWORK_ERROR => js "Network error occurred"
  | REQUEST_TIMEOUT => js "Request timed out"
  | SERVICE_UNAVAILABLE => js "Service is currently unavailable"
  | VALIDATION_ERROR => js "Validation error"
  | MISSING_REQUIRED_FIELD => js "Missing required field"
  | INVALID_FIELD_VALUE => js "Invalid field value"
  | INTERNAL_SERVER_ERROR => js "Internal server error"
  | SERVICE_TEMPORARILY_UNAVAILABLE => js "Service temporarily unavailable"
  | SDK_INITIALIZATION_ERROR => js "SDK initialization error"
  | UNSUPPORTED_OPERATION => js "Unsupported operation"
  | CONFIGURATION_ERROR => js "Configuration error"
  end.

(** [class VantigeSDKError extends Error].  [name] is the constant
    ["VantigeSDKError"]; [timestamp] and [stack] are readings of the clock
    and of the call stack at construction and are left out of the model. *)
Record VantigeSDKError : Type := mkVantigeSDKError {
  message : jsstring;
  code : VantigeErrorCode;
  statusCode : Z;
  details : list value;
  requestId : option jsstring
}.

(** The constructor, with its default parameter values
    ([statusCode = 500], [details = []]) applied to omitted arguments. *)
Definition newVantigeSDKError (message : jsstring) (code : VantigeErrorCode)
    (statusCode : option Z) (details : option (list value))
    (requestId : option jsstring) : VantigeSDKError :=
  {| message := message;
     code := code;
     statusCode := match statusCode with Some n => n | None => 500%Z end;
     details := match details with Some d => d | None => [] end;
     requestId := requestId |}.

(** [statusCode || 500] *)
Definition statusOr500 (statusCode : option Z) : Z :=
  match statusCode with
  | Some n => if (n =? 0)%Z then 500%Z else n
  | None => 500%Z
  end.

(** [Array.isArray(details) ? details : details ? [details] : []] *)
Definition normalizeDetails (details : value) : list value :=
  match details with
  | JArr items => items
  | _ => if truthy details then [details] else []
  end.

Definition createVantigeError (code : VantigeErrorCode)
    (message : option jsstring) (statusCode : option Z) (details : value)
    (requestId : option jsstring) : VantigeSDKError :=
  newVantigeSDKError
    (match orStr message (Some (ErrorMessages code)) with
     | Some m => m
     | None => []
     end)
    code
    (Some (statusOr500 statusCode))
    (Some (normalizeDetails details))
    requestId.

(** The record [toJSON] returns (without [timestamp] and [stack]). *)
Record ErrorJSON : Type := mkErrorJSON {
  json_name : jsstring;
  json_message : jsstring;
  json_code : VantigeErrorCode;
  json_statusCode : Z;
  json_details : list value;
  json_requestId : option jsstring
}.

Definition toJSON (this : VantigeSDKError) : ErrorJSON :=
  {| json_name := js "VantigeSDKError";
     json_message := message this;
     json_code := code this;
     json_statusCode := statusCode this;
     json_details := details this;
     json_requestId := requestId this |}.

End Errors.

Import Errors.

(* ================================================================== *)
(** * Thrown values and completions *)
(* ================================================================== *)

Module Exn.

(** The body of a non-2xx response, read through the envelope the SDK
    expects: [{error: {message, details}} | {message, details}] with an
    optional [meta.requestId].  Message and request-id fields are strings
    when present; detail payloads are arbitrary values. *)
Record ResponseData : Type := mkResponseData {
  data_error_message : option jsstring;   (* data?.error?.message *)
  data_message : option jsstring;         (* data?.message *)
  data_error_details : value;             (* data?.error?.details *)
  data_details : value;                   (* data?.details *)
  data_meta_requestId : option jsstring   (* data?.meta?.requestId *)
}.

Record AxiosResponse : Type := mkAxiosResponse {
  status : Z;
  data : ResponseData;
  header_x_request_id : option jsstring   (* response.headers["x-request-id"] *)
}.

Record AxiosError : Type := mkAxiosError {
  axios_code : option jsstring;           (* axiosError.code *)
  axios_message : jsstring;               (* axiosError.message *)
  response : option AxiosResponse
}.

(** What a rejected promise or a [throw] can carry here: an error of the
    SDK, an error of axios, or any other value (of which only [.message]
    is ever read). *)
Inductive thrown : Type :=
| SDKError (e : VantigeSDKError)
| Axios (e : AxiosError)
| Other (message : option jsstring).

Inductive completion (T : Type) : Type :=
| Return (v : T)
| Throw (e : thrown).
Arguments Return {T} v.
Arguments Throw {T} e.

End Exn.

Import Exn.

(* ================================================================== *)
(** * Credential guard ([src/auth/index.ts], [src/types/validation.ts]) *)
(* ================================================================== *)

Module Auth.

(** [validateApiKey] of [types/validation] *)
Definition validateApiKey (apiKey : jsstring) : bool :=
  startsWith apiKey (js "vk_live_") || startsWith apiKey (js "vk_test_").

(** [/^vk_(live|test)_[a-zA-Z0-9]{32,}$/.test(s)]: the literal [vk_], one of
    the two alternatives, an underscore, then alphanumerics only, at least
    32 of them, up to the end of the input. *)
Definition keyPattern_test (s : jsstring) : bool :=
  match stripPrefix (js "vk_") s with
  | None => false
  | Some afterVk =>
      let afterEnv :=
        match stripPrefix (js "live") afterVk with
        | Some r => Some r
        | None => stripPrefix (js "test") afterVk
        end in
      match afterEnv with
      | None => false
      | Some r =>
          match stripPrefix (js "_") r with
          | None => false
          | Some secret =>
              (32 <=? List.length secret)%nat && forallb isAlnum secret
          end
      end
  end.

Record VantigeAuth : Type := mkVantigeAuth {
  apiKey : jsstring;
  isTestKey : bool
}.

Definition msg_required : jsstring := js "API key is required".
(** ['API key must start with "vk_live_" or "vk_test_"'] *)
Definition msg_prefix : jsstring :=
  js "API key must start with " ++ [34%N] ++ js "vk_live_" ++ [34%N]
  ++ js " or " ++ [34%N] ++ js "vk_test_" ++ [34%N].
Definition msg_format : jsstring := js "API key format is invalid".
Definition msg_short : jsstring := js "API key is too short".

(** [new VantigeAuth(apiKey)], that is [validateAndSetApiKey]: the fields
    of the new object, or the error thrown. *)
Definition validateAndSetApiKey (apiKey : jsstring)
  : completion VantigeAuth :=
  match apiKey with
  | [] =>
      Throw (SDKError (createVantigeError INVALID_API_KEY (Some msg_required)
                         None JUndefined None))
  | _ =>
      if negb (validateApiKey apiKey) then
        Throw (SDKError (createVantigeError INVALID_API_KEY (Some msg_prefix)
                           None JUndefined None))
      else if negb (keyPattern_test apiKey) then
        Throw (SDKError (createVantigeError INVALID_API_KEY (Some msg_format)
                           None JUndefined None))
      else
        Return {| apiKey := apiKey;
                  isTestKey := startsWith apiKey (js "vk_test_") |}
  end.

Inductive Environment : Type := test | live.

Definition getApiKey (this : VantigeAuth) : jsstring := apiKey this.
Definition isTest (this : VantigeAuth) : bool := isTestKey this.
Definition isLive (this : VantigeAuth) : bool := negb (isTestKey this).
Definition getEnvironment (this : VantigeAuth) : Environment :=
  if isTestKey this then test else live.

Definition getAuthHeaders (this : VantigeAuth) : list (jsstring * jsstring) :=
  [ (js "Authorization", js "Bearer " ++ apiKey this) ].

Definition maskApiKey (this : VantigeAuth) : jsstring :=
  if (jslength (apiKey this) <? 12)%Z then apiKey this
  else
    let prefix := substring (apiKey this) 0 8 in
    let suffix := substringFrom (apiKey this) (jslength (apiKey this) - 4) in
    let maskedLength := (jslength (apiKey this) - 12)%Z in
    let masked := repeatStr (js "*") maskedLength in
    prefix ++ masked ++ suffix.

Record KeyFormat : Type := mkKeyFormat {
  isValid : bool;
  environment : option Environment;
  errors : list jsstring
}.

(** [VantigeAuth.validateKeyFormat]; [errors.push] appends. *)
Definition validateKeyFormat (apiKey : jsstring) : KeyFormat :=
  let errors : list jsstring := [] in
  match apiKey with
  | [] =>
      {| isValid := false; environment := None;
         errors := errors ++ [msg_required] |}
  | _ =>
      let errors :=
        if negb (startsWith apiKey (js "vk_live_"))
           && negb (startsWith apiKey (js "vk_test_"))
        then errors ++ [msg_prefix] else errors in
      let errors :=
        if negb (keyPattern_test apiKey)
        then errors ++ [msg_format] else errors in
      let errors :=
        if (jslength apiKey <? 40)%Z
        then errors ++ [msg_short] else errors in
      let isValid := (List.length errors =? 0)%nat in
      let environment :=
        if startsWith apiKey (js "vk_test_") then test else live in
      {| isValid := isValid;
         environment := if isValid then Some environment else None;
         errors := errors |}
  end.

End Auth.

Import Auth.

(* ================================================================== *)
(** * Resilient request executor ([src/client/http-client.ts]) *)
(* ================================================================== *)

Module Http.

Inductive Request : Type :=
| GET (url : jsstring)
| POST (url : jsstring) (body : value).

(** The axios instance seen from the SDK: what the [i]-th request issued
    through it (counting from 0) settles to: the response body of a 2xx
    answer, or the raw failure the promise rejects with. *)
Definition AxiosInstance : Type := nat -> Request -> completion value.

Record HttpClientConfig : Type := mkHttpClientConfig {
  baseUrl : jsstring;
  timeout : Z;
  retries : Z;
  auth : VantigeAuth;
  debug : bool
}.

Record VantigeHttpClient : Type := mkVantigeHttpClient {
  client : AxiosInstance;
  config : HttpClientConfig
}.

(** What a logical call does to the outside, in order: requests handed
    to the transport and delays awaited through [setTimeout]. *)
Inductive Event : Type :=
| Sent (req : Request)
| Slept (delay : Z).

(** The trace of a logical call so far, oldest event first. *)
Definition World : Type := list Event.

Definition isSent (e : Event) : bool :=
  match e with Sent _ => true | Slept _ => false end.

(** The number of transport invocations in a trace. *)
Definition sentCount (w : World) : nat := List.length (List.filter isSent w).

Definition fresh : World := [].

(** An asynchronous computation: it settles to a completion and leaves a
    new world. *)
Definition Async (T : Type) : Type := World -> completion T * World.

Definition resolve {T} (v : T) : Async T := fun w => (Return v, w).
Definition reject {T} (e : thrown) : Async T := fun w => (Throw e, w).

Definition andThen {T U} (m : Async T) (k : T -> Async U) : Async U :=
  fun w =>
    match m w with
    | (Return v, w') => k v w'
    | (Throw e, w') => (Throw e, w')
    end.

Notation "'await' x <- m ; k" := (andThen m (fun x => k))
  (at level 61, x name, m at next level, right associativity).

(** [await new Promise((resolve) => setTimeout(resolve, delay))] *)
Definition sleep (delay : Z) : Async unit :=
  fun w => (Return tt, w ++ [Slept delay]).

(** [a || b] on detail payloads. *)
Definition orValue (a b : value) : value := if truthy a then a else b.

Definition handleError (error : thrown) : VantigeSDKError :=
  match error with
  | SDKError e => e
  | Axios axiosError =>
      match response axiosError with
      | None =>
          (* Handle network errors *)
          match axios_code axiosError with
          | Some c =>
              if str_eqb c (js "ECONNABORTED") then
                createVantigeError REQUEST_TIMEOUT
                  (Some (js "Request timed out")) None JUndefined None
              else
                createVantigeError NETWORK_ERROR
                  (Some (js "Network error occurred")) None JUndefined None
          | None =>
              createVantigeError NETWORK_ERROR
                (Some (js "Network error occurred")) None JUndefined None
          end
      | Some response =>
          (* Handle HTTP errors *)
          let status := status response in
          let data := data response in
          (* Map HTTP status codes to error codes *)
          let errorCode :=
            match status with
            | 401 => INVALID_API_KEY
            | 403 => INSUFFICIENT_PERMISSIONS
            | 404 => KNOWLEDGE_BASE_NOT_FOUND
            | 429 => RATE_LIMIT_EXCEEDED
            | 422 => VALIDATION_ERROR
            | 500 => INTERNAL_SERVER_ERROR
            | 503 => SERVICE_UNAVAILABLE
            | _ => NETWORK_ERROR
            end%Z in
          createVantigeError errorCode
            (orStr (orStr (data_error_message data) (data_message data))
                   (Some (axios_message axiosError)))
            (Some status)
            (orValue (data_error_details data) (data_details data))
            (orStr (data_meta_requestId data) (header_x_request_id response))
      end
  | Other message =>
      (* Handle unknown errors *)
      createVantigeError INTERNAL_SERVER_ERROR
        (orStr message (Some (js "Unknown error occurred")))
        None JUndefined None
  end.

(** One request through the axios instance, response interceptor included:
    a rejection is replaced by [Promise.reject(this.handleError(error))]. *)
Definition send (this : VantigeHttpClient) (req : Request) : Async value :=
  fun w =>
    let w' := w ++ [Sent req] in
    match client this (sentCount w) req with
    | Return body => (Return body, w')
    | Throw error => (Throw (SDKError (handleError error)), w')
    end.

Definition nonRetryableErrors : list VantigeErrorCode :=
  [ INVALID_API_KEY; INSUFFICIENT_PERMISSIONS; VALIDATION_ERROR;
    KNOWLEDGE_BASE_NOT_FOUND ].

(** [codes.includes(c)] *)
Definition includes (codes : list VantigeErrorCode) (c : VantigeErrorCode)
  : bool := existsb (code_eqb c) codes.

(** [Math.min(1000 * Math.pow(2, attempt), 10000)]; the powers of two are
    exact in floating point, so the value is this integer. *)
Definition backoffDelay (attempt : Z) : Z :=
  Z.min (1000 * 2 ^ attempt) 10000.

(** The body of [for (let attempt = 0; attempt <= retries; attempt++)]
    from [attempt] on; [remaining] counts the values of [attempt] still
    within the bound, and with none left the statement after the loop,
    [throw lastError!], runs ([lastError] is still [undefined] if the loop
    never ran). *)
Fixpoint retryLoop {T} (this : VantigeHttpClient) (operation : Async T)
    (remaining : nat) (attempt : Z) (lastError : option VantigeSDKError)
  : Async T :=
  match remaining with
  | O =>
      match lastError with
      | Some e => reject (SDKError e)
      | None => reject (Other None)
      end
  | S remaining' =>
      fun w =>
        match operation w with
        | (Return v, w1) => (Return v, w1)
        | (Throw error, w1) =>
            let lastError :=
              match error with
              | SDKError e => e
              | _ => handleError error
              end in
            (* Don't retry on certain error types *)
            if includes nonRetryableErrors (code lastError) then
              (Throw (SDKError lastError), w1)
            (* Don't retry on the last attempt *)
            else if (attempt =? retries (config this))%Z then
              (Throw (SDKError lastError), w1)
            else
              (* Exponential backoff *)
              let delay := backoffDelay attempt in
              (await _ <- sleep delay ;
               retryLoop this operation remaining' (attempt + 1)
                 (Some lastError)) w1
        end
  end.

Definition executeWithRetry {T} (this : VantigeHttpClient)
    (operation : Async T) : Async T :=
  retryLoop this operation (Z.to_nat (retries (config this) + 1)) 0 None.

Definition get (this : VantigeHttpClient) (url : jsstring) : Async value :=
  executeWithRetry this (send this (GET url)).

Definition post (this : VantigeHttpClient) (url : jsstring) (data : value)
  : Async value :=
  executeWithRetry this (send this (POST url data)).

End Http.

Import Http.

(* ================================================================== *)
(** * Domain operations ([src/client/vantige-client.ts]) *)
(* ================================================================== *)

Module Client.

Record ListKnowledgeBasesParams : Type := mkListKnowledgeBasesParams {
  page : option Z;
  limit : option Z;
  includeArchived : option bool
}.

Record FieldMapping : Type := mkFieldMapping {
  sourceUri : option jsstring;
  sourceDisplayName : option jsstring
}.

(** [QueryParams]; the field [query] is called [queryText] here, the name
    [query] being the operation's. *)
Record QueryParams : Type := mkQueryParams {
  queryText : jsstring;
  topK : option Z;
  includeMetadata : option bool;
  useGeneration : option bool;
  fieldMapping : option FieldMapping
}.

Record VantigeClient : Type := mkVantigeClient {
  client_auth : VantigeAuth;
  httpClient : VantigeHttpClient
}.

(** [VantigeConfig], the argument of the constructor. *)
Record VantigeConfig : Type := mkVantigeConfig {
  cfg_apiKey : jsstring;
  cfg_baseUrl : option jsstring;
  cfg_timeout : option Z;
  cfg_retries : option Z;
  cfg_debug : option bool
}.

(** [n || d] on an optional number. *)
Definition orNum (n : option Z) (d : Z) : Z :=
  match n with
  | Some n => if (n =? 0)%Z then d else n
  | None => d
  end.

(** The configuration the constructor hands to [new VantigeHttpClient]
    once the schema and the key have been accepted: every optional field
    gets its default through [||]. *)
Definition httpClientConfigOf (config : VantigeConfig) (auth : VantigeAuth)
  : HttpClientConfig :=
  {| baseUrl := match orStr (cfg_baseUrl config)
                            (Some (js "https://api.vantige.ai")) with
                | Some url => url
                | None => []
                end;
     timeout := orNum (cfg_timeout config) 30000;
     retries := orNum (cfg_retries config) 3;
     auth := auth;
     debug := match cfg_debug config with
              | Some b => b || false
              | None => false
              end |}.

(** [URLSearchParams]: the pairs in insertion order. *)
Definition URLSearchParams : Type := list (jsstring * jsstring).

Definition append (q : URLSearchParams) (name val : jsstring)
  : URLSearchParams := q ++ [(name, val)].

(** [queryParams.toString()]: [name=value] joined by [&].  The names and
    values appended by the SDK (identifiers, decimal numbers, [true],
    [false]) contain no character that form-encoding would escape. *)
Fixpoint searchToString (q : URLSearchParams) : jsstring :=
  match q with
  | [] => []
  | (name, val) :: rest =>
      name ++ js "=" ++ val ++
      match rest with
      | [] => []
      | _ :: _ => js "&" ++ searchToString rest
      end
  end.

(** [params?.field] on the optional [params] object. *)
Definition optChain {A B} (params : option A) (field : A -> option B)
  : option B :=
  match params with
  | Some p => field p
  | None => None
  end.

(** Truthiness of a number: [0] is the falsy integer. *)
Definition numTruthy (n : Z) : bool := negb (n =? 0)%Z.

(** The request path [listKnowledgeBases] builds. *)
Definition listKnowledgeBasesUrl (params : option ListKnowledgeBasesParams)
  : jsstring :=
  let queryParams : URLSearchParams := [] in
  let queryParams :=
    match optChain params page with          (* if (params?.page) *)
    | Some n => if numTruthy n
                then append queryParams (js "page") (numberToString n)
                else queryParams
    | None => queryParams
    end in
  let queryParams :=
    match optChain params limit with         (* if (params?.limit) *)
    | Some n => if numTruthy n
                then append queryParams (js "limit") (numberToString n)
                else queryParams
    | None => queryParams
    end in
  let queryParams :=
    match optChain params includeArchived with   (* !== undefined *)
    | Some b => append queryParams (js "includeArchived") (boolToString b)
    | None => queryParams
    end in
  let queryString := searchToString queryParams in
  js "/api/v1/knowledge-base" ++
  match queryString with
  | [] => []
  | _ :: _ => js "?" ++ queryString
  end.

(** [!response.success]: reading a property of [undefined] or [null]
    raises a TypeError. *)
Definition notSuccess (response : value) : completion bool :=
  match response with
  | JUndefined | JNull => Throw (Other (Some (js "Cannot read properties")))
  | _ => Return (negb (truthy (prop response (js "success"))))
  end.

Definition checkSuccess (failure : jsstring) (response : value)
  : Async value :=
  match notSuccess response with
  | Throw e => reject e
  | Return true =>
      reject (SDKError (createVantigeError SERVICE_UNAVAILABLE (Some failure)
                          None JUndefined None))
  | Return false => resolve response
  end.

Definition listKnowledgeBases (this : VantigeClient)
    (params : option ListKnowledgeBasesParams) : Async value :=
  let url := listKnowledgeBasesUrl params in
  await response <- get (httpClient this) url ;
  checkSuccess (js "Failed to list knowledge bases") response.

(** The request body: the [params] object, absent fields left out. *)
Definition optField {A} (name : jsstring) (inj : A -> value) (v : option A)
  : list (jsstring * value) :=
  match v with
  | Some a => [(name, inj a)]
  | None => []
  end.

Definition fieldMappingValue (m : FieldMapping) : value :=
  JObj (optField (js "sourceUri") JStr (sourceUri m)
        ++ optField (js "sourceDisplayName") JStr (sourceDisplayName m)).

Definition queryParamsValue (params : QueryParams) : value :=
  JObj ([(js "query", JStr (queryText params))]
        ++ optField (js "topK") JNum (topK params)
        ++ optField (js "includeMetadata") JBool (includeMetadata params)
        ++ optField (js "useGeneration") JBool (useGeneration params)
        ++ optField (js "fieldMapping") fieldMappingValue (fieldMapping params)).

Definition validationError (msg : jsstring) : thrown :=
  SDKError (createVantigeError VALIDATION_ERROR (Some msg) None JUndefined None).

Definition isEmpty (s : jsstring) : bool :=
  match s with [] => true | _ :: _ => false end.

Definition query (this : VantigeClient) (corpusId : jsstring)
    (params : QueryParams) : Async value :=
  if isEmpty corpusId then
    reject (validationError (js "Corpus ID is required"))
  else if isEmpty (queryText params)
          || (jslength (trim (queryText params)) =? 0)%Z then
    reject (validationError (js "Query is required"))
  else if (jslength (queryText params) >? 1000)%Z then
    reject (validationError (js "Query must be 1000 characters or less"))
  else if match topK params with
          | Some k => (k <? 1)%Z || (k >? 100)%Z
          | None => false
          end then
    reject (validationError (js "topK must be between 1 and 100"))
  else
    await response <-
      post (httpClient this)
           (js "/api/v1/knowledge-base/" ++ corpusId ++ js "/query")
           (queryParamsValue params) ;
    checkSuccess (js "Query failed") response.

End Client.

Import Client.

(* ================================================================== *)
(** * The specification's own vocabulary *)
(* ================================================================== *)

(** Definitions that follow the words of the specification rather than the
    code; the theorems below compare the code with them. *)
Module Spec.

(** The credential rules, "all independently checked": non-empty; prefix
    is one of the two recognized literals; overall shape
    [<prefix>_<env>_<alnum, length >= 32>]; overall length at least the
    floor.  Each rule comes with the message that reports its violation. *)
Record Rule : Type := mkRule {
  holds : jsstring -> bool;
  report : jsstring
}.

Definition ruleNonEmpty : Rule :=
  {| holds := fun s => negb (isEmpty s); report := msg_required |}.
Definition rulePrefix : Rule :=
  {| holds := fun s => startsWith s (js "vk_live_")
                       || startsWith s (js "vk_test_");
     report := msg_prefix |}.
Definition ruleShape : Rule :=
  {| holds := keyPattern_test; report := msg_format |}.
Definition ruleFloor : Rule :=
  {| holds := fun s => (40 <=? jslength s)%Z; report := msg_short |}.

Definition rules : list Rule :=
  [ ruleNonEmpty; rulePrefix; ruleShape; ruleFloor ].

(** The messages of every rule [s] violates, in rule order. *)
Definition violations (s : jsstring) : list jsstring :=
  List.map report (List.filter (fun r => negb (holds r s)) rules).

(** The shape [vk_<env>_<secret>] said declaratively. *)
Definition wellShaped (s : jsstring) : Prop :=
  exists env secret,
    (env = js "live" \/ env = js "test")
    /\ s = js "vk_" ++ env ++ js "_" ++ secret
    /\ (32 <= List.length secret)%nat
    /\ Forall (fun c => isAlnum c = true) secret.

(** The fixed table from HTTP status to error kind; any status that is
    not listed is a [NETWORK_ERROR]. *)
Definition fixedTable : list (Z * VantigeErrorCode) :=
  [ (401, INVALID_API_KEY); (403, INSUFFICIENT_PERMISSIONS);
    (404, KNOWLEDGE_BASE_NOT_FOUND); (422, VALIDATION_ERROR);
    (429, RATE_LIMIT_EXCEEDED); (500, INTERNAL_SERVER_ERROR);
    (503, SERVICE_UNAVAILABLE) ]%Z.

Definition kindOfStatus (status : Z) : VantigeErrorCode :=
  match List.find (fun row => (fst row =? status)%Z) fixedTable with
  | Some row => snd row
  | None => NETWORK_ERROR
  end.

(** The same table read from kind to status, "with 500 as the fallback
    for unclassified": the default status the specification attributes to
    a kind. *)
Definition canonicalStatus (kind : VantigeErrorCode) : Z :=
  match List.find (fun row => code_eqb (snd row) kind) fixedTable with
  | Some row => fst row
  | None => 500%Z
  end.

(** The [i]-th request of a logical call fails, and with an error the
    executor may retry. *)
Definition failsRetryably (this : VantigeHttpClient) (req : Request)
    (i : nat) : Prop :=
  exists raw,
    client this i req = Throw raw
    /\ includes nonRetryableErrors (code (handleError raw)) = false.

(** The trace of [k] failed attempts numbered from [a], each followed by
    its backoff delay. *)
Definition failedAttempts (req : Request) (a k : nat) : World :=
  List.flat_map
    (fun i => [Sent req; Slept (backoffDelay (Z.of_nat i))])
    (List.seq a k).

End Spec.

(* ================================================================== *)
(** * Scenarios *)
(* ================================================================== *)

(** Concrete clients and failures, the ones of the test suite and of the
    specification's scenarios. *)
Module Scenario.

Definition noData : ResponseData :=
  {| data_error_message := None; data_message := None;
     data_error_details := JUndefined; data_details := JUndefined;
     data_meta_requestId := None |}.

(** [new Error('Network Error')] marked as an axios error, no response. *)
Definition networkError : thrown :=
  Axios {| axios_code := None; axios_message := js "Network Error";
           response := None |}.

(** A response with the given status and no usable body. *)
Definition httpError (status : Z) : thrown :=
  Axios {| axios_code := None;
           axios_message := js "Request failed";
           response := Some {| status := status; data := noData;
                               header_x_request_id := None |} |}.

Definition successResponse : value := JObj [(js "success", JBool true)].

Definition testAuth : VantigeAuth :=
  {| apiKey := js "vk_test_abcdefghijklmnopqrstuvwxyz123456";
     isTestKey := true |}.

Definition httpClientWith (transport : AxiosInstance) (retries : Z)
  : VantigeHttpClient :=
  {| client := transport;
     config := {| baseUrl := js "https://api.vantige.ai"; timeout := 30000;
                  retries := retries; auth := testAuth; debug := false |} |}.

(** The transport fails [failures] times with [error], then succeeds. *)
Definition failThenSucceed (failures : nat) (error : thrown)
  : AxiosInstance :=
  fun i _ => if (i <? failures)%nat then Throw error
             else Return successResponse.

Definition alwaysFail (error : thrown) : AxiosInstance :=
  fun _ _ => Throw error.

Definition alwaysSucceed : AxiosInstance :=
  fun _ _ => Return successResponse.

End Scenario.

(* ================================================================== *)
(** * More JavaScript primitives *)
(* ================================================================== *)

Module JSMore.

(** [s.split(sep)] for a separator of one code unit: the pieces between
    the separators, empty pieces included; the empty string gives one
    empty piece. *)
Fixpoint split (sep : N) (s : jsstring) : list jsstring :=
  match s with
  | [] => [[]]
  | c :: s' =>
      if N.eqb c sep then [] :: split sep s'
      else match split sep s' with
           | piece :: pieces => (c :: piece) :: pieces
           | [] => [[c]]
           end
  end.

(** [s.replace(/\s+/g, " ")]: every maximal run of whitespace becomes one
    space.  [inRun] tells that the unit before was whitespace, so that the
    run's space has been written already.  The class [\s] is the set
    [trim] strips. *)
Fixpoint collapseFrom (inRun : bool) (s : jsstring) : jsstring :=
  match s with
  | [] => []
  | c :: s' =>
      if isWhiteSpace c then
        if inRun then collapseFrom true s' else 32%N :: collapseFrom true s'
      else c :: collapseFrom false s'
  end.

Definition replaceWhiteSpaceRuns (s : jsstring) : jsstring :=
  collapseFrom false s.

End JSMore.

Import JSMore.

(* ================================================================== *)
(** * Validation helpers ([src/types/validation.ts]) *)
(* ================================================================== *)

Module Validation.

(** [[a-zA-Z0-9_-]] *)
Definition isIdChar (c : N) : bool :=
  isAlnum c || (c =? 95)%N || (c =? 45)%N.

(** [/^[a-zA-Z0-9_-]{10}$/.test(s)] *)
Definition nanoidRegex_test (s : jsstring) : bool :=
  (List.length s =? 10)%nat && forallb isIdChar s.

Definition validateCorpusId (corpusId : jsstring) : bool :=
  nanoidRegex_test corpusId.

Definition validateKnowledgeBaseId (id : jsstring) : bool :=
  nanoidRegex_test id.

Definition validateQueryLength (q : jsstring) : bool :=
  (jslength q >=? 1)%Z && (jslength q <=? 1000)%Z.

Definition validateKnowledgeBaseIds (ids : list jsstring) : bool :=
  (Z.of_nat (List.length ids) >=? 1)%Z
  && (Z.of_nat (List.length ids) <=? 10)%Z
  && forallb validateKnowledgeBaseId ids.

(** [query.trim().replace(/\s+/g, " ")] *)
Definition sanitizeQuery (q : jsstring) : jsstring :=
  replaceWhiteSpaceRuns (trim q).

End Validation.

Import Validation.

(* ================================================================== *)
(** * Vocabulary for the properties of the helpers *)
(* ================================================================== *)

Module Tidy.

(** Every whitespace unit is a space followed by a unit that is not
    whitespace: no run of two, none at the end. *)
Fixpoint singleSpaced (s : jsstring) : bool :=
  match s with
  | [] => true
  | c :: s' =>
      (if isWhiteSpace c
       then (c =? 32)%N
            && match s' with
               | d :: _ => negb (isWhiteSpace d)
               | [] => false
               end
       else true)
      && singleSpaced s'
  end.

Definition noLeadingWhiteSpace (s : jsstring) : bool :=
  match s with
  | c :: _ => negb (isWhiteSpace c)
  | [] => true
  end.

(** Words separated by single spaces, nothing around them. *)
Definition tidy (s : jsstring) : bool :=
  noLeadingWhiteSpace s && singleSpaced s.

(** The units of [s] that are not whitespace, in order. *)
Definition inked (s : jsstring) : jsstring :=
  List.filter (fun c => negb (isWhiteSpace c)) s.

End Tidy.

(* ================================================================== *)
(** * The rest of the credential guard ([src/auth/index.ts]) *)
(* ================================================================== *)

Module KeyInfo.

(** The object [extractKeyInfo] returns; [environment] is [parts[1]], a
    string. *)
Record KeyInfo : Type := mkKeyInfo {
  info_prefix : jsstring;
  info_environment : jsstring;
  info_keyId : jsstring;
  info_isValid : bool
}.

(** [VantigeAuth.extractKeyInfo]; [None] is [null]. *)
Definition extractKeyInfo (apiKey : jsstring) : option KeyInfo :=
  let validation := validateKeyFormat apiKey in
  if negb (isValid validation) then None
  else
    let parts := split 95%N apiKey in        (* apiKey.split("_") *)
    if negb (List.length parts =? 3)%nat then None
    else
      let keyId := nth 2 parts [] in
      if isEmpty keyId then None
      else
        Some {| info_prefix := nth 0 parts [] ++ js "_"
                               ++ nth 1 parts [] ++ js "_";
                info_environment := nth 1 parts [];
                info_keyId := keyId;
                info_isValid := true |}.

End KeyInfo.

Import KeyInfo.

(* ================================================================== *)
(** * The rest of the client ([src/client/vantige-client.ts]) *)
(* ================================================================== *)

Module ClientMore.

(** What the SDK uses of the schema library: the URL test behind
    [z.string().url()], and the message and fields of the error [parse]
    throws.  The library is not part of the repository; it is a
    parameter. *)
Record Zod : Type := mkZod {
  isUrl : jsstring -> bool;
  errorMessage : VantigeConfig -> jsstring;
  errorFields : VantigeConfig -> list (jsstring * value)
}.

(** Whether [VantigeConfigSchema.parse(config)] returns. *)
Definition schemaAccepts (zod : Zod) (config : VantigeConfig) : bool :=
  (startsWith (cfg_apiKey config) (js "vk_live_")
   || startsWith (cfg_apiKey config) (js "vk_test_"))
  && match cfg_baseUrl config with
     | Some url => isUrl zod url
     | None => true
     end
  && match cfg_timeout config with
     | Some t => (1000 <=? t)%Z && (t <=? 60000)%Z
     | None => true
     end
  && match cfg_retries config with
     | Some r => (0 <=? r)%Z && (r <=? 5)%Z
     | None => true
     end.

(** [validateConfig]: the error it throws, if any. *)
Definition validateConfig (zod : Zod) (config : VantigeConfig)
  : option thrown :=
  if schemaAccepts zod config then None
  else Some (SDKError
               (createVantigeError CONFIGURATION_ERROR
                  (Some (js "Invalid configuration: "
                         ++ errorMessage zod config))
                  None
                  (JObj (errorFields zod config))
                  None)).

(** [new VantigeClient(config)]; [transport] is the instance
    [axios.create] returns. *)
Definition newVantigeClient (zod : Zod) (transport : AxiosInstance)
    (config : VantigeConfig) : completion VantigeClient :=
  match validateConfig zod config with
  | Some e => Throw e
  | None =>
      match validateAndSetApiKey (cfg_apiKey config) with
      | Throw e => Throw e
      | Return auth =>
          Return {| client_auth := auth;
                    httpClient :=
                      {| client := transport;
                         config := httpClientConfigOf config auth |} |}
      end
  end.

Record ApiKeyInfo : Type := mkApiKeyInfo {
  key_environment : Environment;
  maskedKey : jsstring
}.

Definition getKeyInfo (this : VantigeClient) : ApiKeyInfo :=
  {| key_environment := getEnvironment (client_auth this);
     maskedKey := maskApiKey (client_auth this) |}.






(** [Partial<VantigeConfig>], the [options] of the factories; [None] is a
    property that is not there. *)
Record PartialConfig : Type := mkPartialConfig {
  opt_apiKey : option jsstring;
  opt_baseUrl : option jsstring;
  opt_timeout : option Z;
  opt_retries : option Z;
  opt_debug : option bool
}.

(** [{ apiKey, ...options }] *)
Definition spreadOptions (apiKey : jsstring) (options : option PartialConfig)
  : VantigeConfig :=
  match options with
  | None =>
      {| cfg_apiKey := apiKey; cfg_baseUrl := None; cfg_timeout := None;
         cfg_retries := None; cfg_debug := None |}
  | Some o =>
      {| cfg_apiKey := match opt_apiKey o with
                       | Some k => k
                       | None => apiKey
                       end;
         cfg_baseUrl := opt_baseUrl o;
         cfg_timeout := opt_timeout o;
         cfg_retries := opt_retries o;
         cfg_debug := opt_debug o |}
  end.

(** ['Test client requires an API key starting with "vk_test_"'] *)
Definition msg_test_client : jsstring :=
  js "Test client requires an API key starting with "
  ++ [34%N] ++ js "vk_test_" ++ [34%N].

(** ['Live client requires an API key starting with "vk_live_"'] *)
Definition msg_live_client : jsstring :=
  js "Live client requires an API key starting with "
  ++ [34%N] ++ js "vk_live_" ++ [34%N].

(** [VantigeClient.createTestClient] *)
Definition createTestClient (zod : Zod) (transport : AxiosInstance)
    (apiKey : jsstring) (options : option PartialConfig)
  : completion VantigeClient :=
  if negb (startsWith apiKey (js "vk_test_")) then
    Throw (SDKError (createVantigeError INVALID_API_KEY (Some msg_test_client)
                       None JUndefined None))
  else newVantigeClient zod transport (spreadOptions apiKey options).

(** [VantigeClient.createLiveClient] *)
Definition createLiveClient (zod : Zod) (transport : AxiosInstance)
    (apiKey : jsstring) (options : option PartialConfig)
  : completion VantigeClient :=
  if negb (startsWith apiKey (js "vk_live_")) then
    Throw (SDKError (createVantigeError INVALID_API_KEY (Some msg_live_client)
                       None JUndefined None))
  else newVantigeClient zod transport (spreadOptions apiKey options).

(** [src/index.ts]: [createVantigeClient] *)
Definition createVantigeClient (zod : Zod) (transport : AxiosInstance)
    (apiKey : jsstring) (options : option PartialConfig)
  : completion VantigeClient :=
  newVantigeClient zod transport (spreadOptions apiKey options).

(** [src/index.ts]: [validateApiKeyFormat], through
    [VantigeClient.validateApiKey] *)
Definition validateApiKeyFormat (apiKey : jsstring) : KeyFormat :=
  validateKeyFormat apiKey.

End ClientMore.

Import ClientMore.

(** A schema library for the scenarios: a URL is what starts with
    [http://] or [https://]; the error it throws says "invalid". *)
Module ScenarioZod.

Definition zod : Zod :=
  {| isUrl := fun url => startsWith url (js "http://")
                         || startsWith url (js "https://");
     errorMessage := fun _ => js "invalid";
     errorFields := fun _ => [(js "name", JStr (js "ZodError"))] |}.

End ScenarioZod.

(* ================================================================== *)
(** * Reading a trace *)
(* ================================================================== *)

Module Trace.

(** The delays of a trace, in order. *)
Definition delays (w : World) : list Z :=
  List.flat_map
    (fun e => match e with Slept d => [d] | Sent _ => [] end) w.

(** The time spent waiting between attempts, in milliseconds. *)
Definition totalSlept (w : World) : Z := List.fold_right Z.add 0%Z (delays w).

(** The requests of a trace, in order. *)
Definition sent (w : World) : list Request :=
  List.flat_map
    (fun e => match e with Sent r => [r] | Slept _ => [] end) w.

(** A completion that is a value or an error of the SDK: nothing raw. *)
Definition settledBySdk {T} (c : completion T) : Prop :=
  match c with
  | Return _ => True
  | Throw (SDKError _) => True
  | Throw _ => False
  end.

End Trace.

(* ================================================================== *)
(** * Tool adapters ([src/utils/ai-sdk-tools.ts]): the execute functions *)
(* ================================================================== *)

Module Tools.

(** The [execute] of a simplified tool for the knowledge base [kbId]:
    [client.query(kb.id, { query: params.query })]. *)
Definition simplifiedExecute (client : VantigeClient) (kbId : jsstring)
    (queryOfParams : jsstring) : Async value :=
  query client kbId
    {| queryText := queryOfParams; topK := None; includeMetadata := None;
       useGeneration := None; fieldMapping := None |}.

(** The [execute] of a full tool: the query text and, of the optional
    fields, those that are not [undefined], copied into a new object that
    goes to [client.query]. *)
Definition fullExecute (client : VantigeClient) (kbId : jsstring)
    (params : QueryParams) : Async value :=
  let queryParams :=
    {| queryText := queryText params;
       topK := match topK params with Some k => Some k | None => None end;
       includeMetadata :=
         match includeMetadata params with
         | Some b => Some b
         | None => None
         end;
       useGeneration :=
         match useGeneration params with
         | Some b => Some b
         | None => None
         end;
       fieldMapping :=
         match fieldMapping params with
         | Some m => Some m
         | None => None
         end |} in
  query client kbId queryParams.

End Tools.

Import Tools.

(* ================================================================== *)
(** * Properties of the JavaScript primitives *)
(* ================================================================== *)

Section JSFacts.

Lemma str_eqb_eq (a b : jsstring) : str_eqb a b = true <-> a = b.
Proof.
  revert b; induction a as [|x a IH]; intros [|y b]; simpl;
    try (split; [discriminate | discriminate]); try tauto.
  rewrite andb_true_iff, N.eqb_eq, IH.
  split; [intros [-> ->]; reflexivity | intros H; inversion H; auto].
Qed.

Lemma str_eqb_refl (a : jsstring) : str_eqb a a = true.
Proof. apply str_eqb_eq; reflexivity. Qed.

Lemma stripPrefix_Some (p s r : jsstring) :
  stripPrefix p s = Some r <-> s = p ++ r.
Proof.
  revert s; induction p as [|c p IH]; intros s; simpl.
  - split; [intros [= ->]; reflexivity | intros ->; reflexivity].
  - destruct s as [|d s]; [split; discriminate|].
    destruct (N.eqb_spec c d) as [->|Hne].
    + rewrite IH. split; [intros ->; reflexivity | intros [= ->]; reflexivity].
    + split; [discriminate | intros [= E _]; congruence].
Qed.

Lemma startsWith_stripPrefix (s p : jsstring) :
  startsWith s p = true <-> exists r, stripPrefix p s = Some r.
Proof.
  revert s; induction p as [|c p IH]; intros s; simpl.
  - destruct s; simpl; split; eauto.
  - destruct s as [|d s]; [split; [discriminate | intros [r [=]]]|].
    destruct (N.eqb_spec c d) as [->|Hne]; simpl.
    + rewrite N.eqb_refl. simpl. apply IH.
    + rewrite (proj2 (N.eqb_neq c d) Hne). simpl.
      split; [discriminate | intros [r [=]]].
Qed.

Lemma startsWith_app (p r : jsstring) : startsWith (p ++ r) p = true.
Proof.
  apply startsWith_stripPrefix. exists r. apply stripPrefix_Some. reflexivity.
Qed.

Lemma trimStart_length (s : jsstring) :
  (List.length (trimStart s) <= List.length s)%nat.
Proof.
  induction s as [|c s IH]; simpl; [lia|].
  destruct (isWhiteSpace c); simpl; lia.
Qed.

Lemma trim_length (s : jsstring) : (jslength (trim s) <= jslength s)%Z.
Proof.
  unfold jslength, trim, trimEnd.
  rewrite length_rev.
  pose proof (trimStart_length (rev (trimStart s))) as H1.
  rewrite length_rev in H1.
  pose proof (trimStart_length s). lia.
Qed.

(** On a string of at least [stop] units, [substring(0, stop)] is the
    first [stop] units. *)
Lemma substring_prefix (s : jsstring) (stop : Z) :
  (0 <= stop <= jslength s)%Z ->
  substring s 0 stop = firstn (Z.to_nat stop) s.
Proof.
  intros H. unfold substring, clamp.
  replace (Z.max 0 (Z.min 0 (jslength s))) with 0%Z by lia.
  replace (Z.max 0 (Z.min stop (jslength s))) with stop by lia.
  replace (Z.min 0 stop) with 0%Z by lia.
  replace (Z.max 0 stop) with stop by lia.
  rewrite Z.sub_0_r. reflexivity.
Qed.

(** [substring(start)] with [start] inside the string drops the first
    [start] units. *)
Lemma substringFrom_suffix (s : jsstring) (start : Z) :
  (0 <= start <= jslength s)%Z ->
  substringFrom s start = skipn (Z.to_nat start) s.
Proof.
  intros H. unfold substringFrom, substring, clamp.
  replace (Z.max 0 (Z.min start (jslength s))) with start by lia.
  replace (Z.max 0 (Z.min (jslength s) (jslength s))) with (jslength s) by lia.
  replace (Z.min start (jslength s)) with start by lia.
  replace (Z.max start (jslength s)) with (jslength s) by lia.
  apply firstn_all2. rewrite length_skipn. unfold jslength in *. lia.
Qed.

End JSFacts.

(* ================================================================== *)
(** * Credential guard: properties *)
(* ================================================================== *)

Section AuthFacts.

Lemma repeatStr_unit_length (c : N) (n : nat) :
  List.length (List.concat (List.repeat [c] n)) = n.
Proof. induction n as [|n IH]; simpl; [reflexivity | now rewrite IH]. Qed.

Lemma repeatStr_unit (c : N) (n : nat) :
  List.concat (List.repeat [c] n) = List.repeat c n.
Proof. induction n as [|n IH]; simpl; [reflexivity | now rewrite IH]. Qed.

(** The hand-compiled pattern accepts exactly the well-shaped strings. *)
Lemma keyPattern_test_wellShaped (s : jsstring) :
  keyPattern_test s = true <-> Spec.wellShaped s.
Proof.
  unfold keyPattern_test, Spec.wellShaped. split.
  - destruct (stripPrefix (js "vk_") s) as [afterVk|] eqn:E1; [|discriminate].
    apply stripPrefix_Some in E1. intros H.
    assert (exists env r, (env = js "live" \/ env = js "test")
                          /\ afterVk = env ++ r
                          /\ match stripPrefix (js "_") r with
                             | Some secret =>
                                 (32 <=? List.length secret)%nat
                                 && forallb isAlnum secret
                             | None => false
                             end = true) as (env & r & Henv & Hr & H').
    { destruct (stripPrefix (js "live") afterVk) as [r|] eqn:E2.
      - apply stripPrefix_Some in E2. exists (js "live"), r. auto.
      - destruct (stripPrefix (js "test") afterVk) as [r|] eqn:E3;
          [|discriminate].
        apply stripPrefix_Some in E3. exists (js "test"), r. auto. }
    destruct (stripPrefix (js "_") r) as [secret|] eqn:E4; [|discriminate].
    apply stripPrefix_Some in E4.
    apply andb_true_iff in H' as [Hlen Hal].
    exists env, secret. repeat split; auto.
    + subst. reflexivity.
    + apply Nat.leb_le; assumption.
    + apply Forall_forall. apply forallb_forall. assumption.
  - intros (env & secret & Henv & -> & Hlen & Hal).
    assert (forallb isAlnum secret = true) as Hal'
      by (apply forallb_forall; apply Forall_forall; assumption).
    assert ((32 <=? List.length secret)%nat = true) as Hlen'
      by (apply Nat.leb_le; assumption).
    assert (E1 : stripPrefix (js "vk_") (js "vk_" ++ env ++ js "_" ++ secret)
                 = Some (env ++ js "_" ++ secret))
      by (apply stripPrefix_Some; reflexivity).
    assert (E4 : stripPrefix (js "_") (js "_" ++ secret) = Some secret)
      by (apply stripPrefix_Some; reflexivity).
    rewrite E1.
    destruct Henv as [-> | ->].
    + assert (E2 : stripPrefix (js "live") (js "live" ++ js "_" ++ secret)
                   = Some (js "_" ++ secret))
        by (apply stripPrefix_Some; reflexivity).
      rewrite E2, E4, Hlen', Hal'. reflexivity.
    + assert (E2 : stripPrefix (js "live") (js "test" ++ js "_" ++ secret)
                   = None) by reflexivity.
      assert (E3 : stripPrefix (js "test") (js "test" ++ js "_" ++ secret)
                   = Some (js "_" ++ secret))
        by (apply stripPrefix_Some; reflexivity).
      rewrite E2, E3, E4, Hlen', Hal'. reflexivity.
Qed.

(** A string that matches the pattern passes every other check. *)
Lemma keyPattern_test_implies (s : jsstring) :
  keyPattern_test s = true ->
  validateApiKey s = true /\ (40 <= jslength s)%Z /\ s <> [].
Proof.
  intros H. apply keyPattern_test_wellShaped in H.
  destruct H as (env & secret & Henv & -> & Hlen & _).
  unfold validateApiKey, jslength.
  destruct Henv as [-> | ->].
  - change (js "vk_" ++ js "live" ++ js "_" ++ secret)
      with (js "vk_live_" ++ secret).
    rewrite startsWith_app. simpl orb. rewrite length_app.
    repeat split; [simpl; lia | discriminate].
  - change (js "vk_" ++ js "test" ++ js "_" ++ secret)
      with (js "vk_test_" ++ secret).
    rewrite (startsWith_app (js "vk_test_")), orb_true_r. rewrite length_app.
    repeat split; [simpl; lia | discriminate].
Qed.

End AuthFacts.

Section AuthTheorems.

(** C6.  [maskApiKey] returns a string of exactly the length of the key it
    masks; a key shorter than 12 units is returned unchanged; a key of at
    least 12 units keeps its first 8 and last 4 units and has every unit in
    between replaced by ["*"].  The 40-unit key
    ["vk_test_abcdefghijklmnopqrstuvwxyz123456"] masks to ["vk_test_"], 28
    stars, ["3456"]. *)
Theorem maskApiKey_preserves_length (this : VantigeAuth) :
  List.length (maskApiKey this) = List.length (apiKey this)
  /\ ((jslength (apiKey this) < 12)%Z -> maskApiKey this = apiKey this)
  /\ ((12 <= jslength (apiKey this))%Z ->
      maskApiKey this
      = firstn 8 (apiKey this)
        ++ List.repeat 42%N (List.length (apiKey this) - 12)
        ++ skipn (List.length (apiKey this) - 4) (apiKey this))
  /\ (apiKey this = js "vk_test_abcdefghijklmnopqrstuvwxyz123456" ->
      maskApiKey this = js "vk_test_" ++ List.repeat 42%N 28 ++ js "3456").
Proof.
  assert (Hlong : (12 <= jslength (apiKey this))%Z ->
      maskApiKey this
      = firstn 8 (apiKey this)
        ++ List.repeat 42%N (List.length (apiKey this) - 12)
        ++ skipn (List.length (apiKey this) - 4) (apiKey this)).
  { intros H. unfold maskApiKey.
    destruct (Z.ltb_spec (jslength (apiKey this)) 12) as [Hlt|_]; [lia|].
    rewrite substring_prefix by lia.
    rewrite substringFrom_suffix by lia.
    unfold repeatStr. change (js "*") with [42%N]. rewrite repeatStr_unit.
    unfold jslength in *.
    replace (Z.to_nat (Z.of_nat (List.length (apiKey this)) - 12))
      with (List.length (apiKey this) - 12)%nat by lia.
    replace (Z.to_nat (Z.of_nat (List.length (apiKey this)) - 4))
      with (List.length (apiKey this) - 4)%nat by lia.
    reflexivity. }
  assert (Hshort : (jslength (apiKey this) < 12)%Z ->
                   maskApiKey this = apiKey this).
  { intros H. unfold maskApiKey.
    destruct (Z.ltb_spec (jslength (apiKey this)) 12); [reflexivity | lia]. }
  repeat split; auto.
  - destruct (Z.lt_ge_cases (jslength (apiKey this)) 12) as [Hlt|Hge].
    + now rewrite Hshort.
    + rewrite (Hlong Hge). unfold jslength in Hge.
      rewrite !length_app, repeat_length, length_skipn, length_firstn. lia.
  - intros E. rewrite Hlong; rewrite E; [reflexivity | vm_compute; discriminate].
Qed.

Lemma maskApiKey_preserves_length_witness :
  maskApiKey {| apiKey := js "vk_test_short"; isTestKey := true |}
  = js "vk_test_*hort"
  /\ maskApiKey {| apiKey := js "vk_test_"; isTestKey := true |}
     = js "vk_test_".
Proof.
  split.
  - apply (proj1 (proj2 (proj2
      (maskApiKey_preserves_length
         {| apiKey := js "vk_test_short"; isTestKey := true |})))).
    vm_compute. discriminate.
  - apply (proj1 (proj2
      (maskApiKey_preserves_length
         {| apiKey := js "vk_test_"; isTestKey := true |}))).
    vm_compute. reflexivity.
Defined.

(** C9, as stated, fails on the empty string: it violates the prefix rule
    (and the shape and length rules), yet [validateKeyFormat] returns early
    and reports only "API key is required". *)
Lemma validateKeyFormat_empty_reports_one_rule :
  ~ (forall r, In r Spec.rules -> Spec.holds r [] = false ->
       In (Spec.report r) (errors (validateKeyFormat []))).
Proof.
  intros H.
  specialize (H Spec.rulePrefix (or_intror (or_introl eq_refl)) eq_refl).
  vm_compute in H.
  destruct H as [H | []]. discriminate H.
Qed.

(** C9, amended.  The constructor path and [validateKeyFormat] accept the
    same strings: [new VantigeAuth(s)] succeeds exactly when
    [validateKeyFormat(s).isValid]; on a non-empty string
    [validateKeyFormat] reports the message of every violated rule (and
    nothing else), on the empty string it reports "API key is required"
    alone; when validation fails the constructor throws an
    [INVALID_API_KEY] error carrying a single message, the first one
    [validateKeyFormat] reports. *)
Theorem validateAndSetApiKey_agrees_with_validateKeyFormat (s : jsstring) :
  ((exists a, validateAndSetApiKey s = Return a)
   <-> isValid (validateKeyFormat s) = true)
  /\ (s <> [] -> errors (validateKeyFormat s) = Spec.violations s)
  /\ errors (validateKeyFormat []) = [msg_required]
  /\ (isValid (validateKeyFormat s) = false ->
      exists m rest,
        errors (validateKeyFormat s) = m :: rest
        /\ validateAndSetApiKey s
           = Throw (SDKError (createVantigeError INVALID_API_KEY (Some m)
                                None JUndefined None))).
Proof.
  destruct s as [|c s].
  { repeat split; try discriminate; try congruence.
    - intros [a H]; discriminate H.
    - intros _. exists msg_required, []. split; reflexivity. }
  set (k := c :: s).
  unfold validateAndSetApiKey, validateKeyFormat, Spec.violations, Spec.rules.
  fold k. cbn [List.filter List.map Spec.holds Spec.report Spec.ruleNonEmpty
               Spec.rulePrefix Spec.ruleShape Spec.ruleFloor isEmpty k negb].
  change (validateApiKey k)
    with (startsWith k (js "vk_live_") || startsWith k (js "vk_test_")).
  rewrite <- negb_orb.
  rewrite (Z.leb_antisym (jslength k) 40), negb_involutive.
  destruct (keyPattern_test k) eqn:Epat.
  - destruct (keyPattern_test_implies k Epat) as (Hpre & Hlen & _).
    unfold validateApiKey in Hpre. rewrite Hpre.
    destruct (Z.ltb_spec (jslength k) 40) as [Hlt|_]; [lia|].
    cbn. repeat split; eauto; discriminate.
  - destruct (startsWith k (js "vk_live_") || startsWith k (js "vk_test_"));
      destruct (jslength k <? 40)%Z; cbn;
      (repeat split; [intros [a H]; discriminate H | discriminate | eauto ..]).
Qed.

Lemma validateAndSetApiKey_agrees_with_validateKeyFormat_witness :
  errors (validateKeyFormat (js "invalid_key"))
  = Spec.violations (js "invalid_key")
  /\ exists m rest,
       errors (validateKeyFormat (js "invalid_key")) = m :: rest
       /\ validateAndSetApiKey (js "invalid_key")
          = Throw (SDKError (createVantigeError INVALID_API_KEY (Some m)
                               None JUndefined None)).
Proof.
  split.
  - apply (proj1 (proj2
      (validateAndSetApiKey_agrees_with_validateKeyFormat (js "invalid_key")))).
    discriminate.
  - apply (proj2 (proj2 (proj2
      (validateAndSetApiKey_agrees_with_validateKeyFormat (js "invalid_key"))))).
    vm_compute. reflexivity.
Defined.

End AuthTheorems.

(* ================================================================== *)
(** * Request executor: properties *)
(* ================================================================== *)

Section HttpFacts.

Lemma code_eqb_eq (a b : VantigeErrorCode) : code_eqb a b = true <-> a = b.
Proof. destruct a, b; simpl; split; congruence. Qed.

Lemma includes_In (codes : list VantigeErrorCode) (c : VantigeErrorCode) :
  includes codes c = true <-> In c codes.
Proof.
  unfold includes. rewrite existsb_exists. split.
  - intros (x & Hin & E). apply code_eqb_eq in E. now subst.
  - intros Hin. exists c. split; [assumption | now apply code_eqb_eq].
Qed.

(** The [switch] of [handleError] is the fixed table. *)
Lemma status_switch_is_fixedTable (status : Z) :
  match status with
  | 401 => INVALID_API_KEY
  | 403 => INSUFFICIENT_PERMISSIONS
  | 404 => KNOWLEDGE_BASE_NOT_FOUND
  | 429 => RATE_LIMIT_EXCEEDED
  | 422 => VALIDATION_ERROR
  | 500 => INTERNAL_SERVER_ERROR
  | 503 => SERVICE_UNAVAILABLE
  | _ => NETWORK_ERROR
  end%Z = Spec.kindOfStatus status.
Proof.
  destruct status as [|p|p]; try reflexivity.
  do 10 (try (destruct p as [p|p|]; try reflexivity)).
Qed.

Lemma sentCount_app (w1 w2 : World) :
  sentCount (w1 ++ w2) = (sentCount w1 + sentCount w2)%nat.
Proof. unfold sentCount. now rewrite filter_app, length_app. Qed.

Lemma sentCount_failedAttempts (req : Request) (a k : nat) :
  sentCount (Spec.failedAttempts req a k) = k.
Proof.
  unfold Spec.failedAttempts. revert a.
  induction k as [|k IH]; intros a; [reflexivity|].
  cbn [List.seq List.flat_map]. rewrite sentCount_app, IH. reflexivity.
Qed.

End HttpFacts.

Section RetryLoop.

Variable this : VantigeHttpClient.
Variable req : Request.

Lemma retryLoop_success (m : nat) (a : Z) (last : option VantigeSDKError)
    (w : World) (v : value) :
  client this (sentCount w) req = Return v ->
  retryLoop this (send this req) (S m) a last w = (Return v, w ++ [Sent req]).
Proof. intros H. cbn [retryLoop]. unfold send. rewrite H. reflexivity. Qed.

Lemma retryLoop_fatal (m : nat) (a : Z) (last : option VantigeSDKError)
    (w : World) (raw : thrown) :
  client this (sentCount w) req = Throw raw ->
  includes nonRetryableErrors (code (handleError raw)) = true ->
  retryLoop this (send this req) (S m) a last w
  = (Throw (SDKError (handleError raw)), w ++ [Sent req]).
Proof. intros H Hinc. cbn [retryLoop]. unfold send. rewrite H, Hinc. reflexivity. Qed.

Lemma retryLoop_exhausted (m : nat) (last : option VantigeSDKError)
    (w : World) (raw : thrown) :
  client this (sentCount w) req = Throw raw ->
  includes nonRetryableErrors (code (handleError raw)) = false ->
  retryLoop this (send this req) (S m) (retries (config this)) last w
  = (Throw (SDKError (handleError raw)), w ++ [Sent req]).
Proof.
  intros H Hinc. cbn [retryLoop]. unfold send. rewrite H, Hinc, Z.eqb_refl. reflexivity.
Qed.

Lemma retryLoop_step (m : nat) (a : Z) (last : option VantigeSDKError)
    (w : World) (raw : thrown) :
  client this (sentCount w) req = Throw raw ->
  includes nonRetryableErrors (code (handleError raw)) = false ->
  a <> retries (config this) ->
  retryLoop this (send this req) (S m) a last w
  = retryLoop this (send this req) m (a + 1) (Some (handleError raw))
      (w ++ [Sent req; Slept (backoffDelay a)]).
Proof.
  intros H Hinc Hne. cbn [retryLoop]. unfold send at 1. rewrite H, Hinc.
  rewrite (proj2 (Z.eqb_neq _ _) Hne).
  unfold andThen, sleep. rewrite <- app_assoc. reflexivity.
Qed.

(** [k] retryable failures in a row, with budget to spare, lead to attempt
    [a + k] with the trace grown by [k] requests and [k] delays. *)
Lemma retryLoop_failures (k : nat) :
  forall (m a : nat) (last : option VantigeSDKError) (w : World),
    (Z.of_nat (a + k) <= retries (config this))%Z ->
    (forall i, (i < k)%nat -> Spec.failsRetryably this req (sentCount w + i)) ->
    retryLoop this (send this req) (k + S m) (Z.of_nat a) last w
    = retryLoop this (send this req) (S m) (Z.of_nat (a + k)) last
        (w ++ Spec.failedAttempts req a k).
Proof.
  induction k as [|k IH]; intros m a last w Hbudget Hfail.
  - rewrite Nat.add_0_r. unfold Spec.failedAttempts. simpl.
    now rewrite app_nil_r.
  - destruct (Hfail 0%nat ltac:(lia)) as (raw & Hraw & Hinc).
    rewrite Nat.add_0_r in Hraw.
    change (S k + S m)%nat with (S (k + S m)).
    rewrite (retryLoop_step _ _ _ Hraw Hinc) by lia.
    replace (Z.of_nat a + 1)%Z with (Z.of_nat (S a)) by lia.
    rewrite IH.
    + replace (S a + k)%nat with (a + S k)%nat by lia.
      unfold Spec.failedAttempts. cbn [List.seq List.flat_map].
      rewrite <- app_assoc. reflexivity.
    + lia.
    + intros i Hi. rewrite sentCount_app. cbn.
      replace (sentCount w + 1 + i)%nat with (sentCount w + S i)%nat by lia.
      apply Hfail. lia.
Qed.

(** The loop only ever appends to the trace. *)
Lemma retryLoop_extends (rem : nat) :
  forall (a : Z) (last : option VantigeSDKError) (w : World),
    exists rest,
      snd (retryLoop this (send this req) rem a last w) = w ++ rest.
Proof.
  induction rem as [|rem IH]; intros a last w.
  - exists []. rewrite app_nil_r. simpl. destruct last; reflexivity.
  - cbn [retryLoop]. unfold send at 1.
    destruct (client this (sentCount w) req) as [v|raw].
    + exists [Sent req]. reflexivity.
    + destruct (includes nonRetryableErrors (code (handleError raw)));
        [exists [Sent req]; reflexivity|].
      destruct (a =? retries (config this))%Z;
        [exists [Sent req]; reflexivity|].
      unfold andThen, sleep.
      destruct (IH (a + 1)%Z (Some (handleError raw))
                  ((w ++ [Sent req]) ++ [Slept (backoffDelay a)]))
        as [rest Hrest].
      exists ([Sent req; Slept (backoffDelay a)] ++ rest).
      rewrite Hrest, <- !app_assoc. reflexivity.
Qed.

(** With an iteration left, the next thing that happens is a request. *)
Lemma retryLoop_sends_first (m : nat) (a : Z) (last : option VantigeSDKError)
    (w : World) :
  exists rest,
    snd (retryLoop this (send this req) (S m) a last w)
    = w ++ Sent req :: rest.
Proof.
  cbn [retryLoop]. unfold send at 1.
  destruct (client this (sentCount w) req) as [v|raw].
  - exists []. reflexivity.
  - destruct (includes nonRetryableErrors (code (handleError raw)));
      [exists []; reflexivity|].
    destruct (a =? retries (config this))%Z; [exists []; reflexivity|].
    unfold andThen, sleep.
    destruct (retryLoop_extends m (a + 1)%Z (Some (handleError raw))
                ((w ++ [Sent req]) ++ [Slept (backoffDelay a)]))
      as [rest Hrest].
    exists (Slept (backoffDelay a) :: rest).
    rewrite Hrest, <- !app_assoc. reflexivity.
Qed.

(** From a fresh trace: after [k] retryable failures within the budget the
    executor is about to make attempt [k]. *)
Lemma executeWithRetry_failures (k : nat) :
  (Z.of_nat k <= retries (config this))%Z ->
  (forall i, (i < k)%nat -> Spec.failsRetryably this req i) ->
  executeWithRetry this (send this req) fresh
  = retryLoop this (send this req)
      (S (Z.to_nat (retries (config this)) - k)) (Z.of_nat k) None
      (Spec.failedAttempts req 0 k).
Proof.
  intros Hk Hfail. unfold executeWithRetry, fresh.
  replace (Z.to_nat (retries (config this) + 1))
    with (k + S (Z.to_nat (retries (config this)) - k))%nat by lia.
  change 0%Z with (Z.of_nat 0).
  rewrite retryLoop_failures; [reflexivity | simpl; lia | exact Hfail].
Qed.

End RetryLoop.

Section HttpTheorems.

(** A response object can carry the number 0 as its status, which is not
    an HTTP status; [createVantigeError] reads the status through
    [statusCode || 500], so the error then gets status 500. *)
Remark handleError_status_zero_not_preserved :
  statusCode
    (handleError
       (Axios {| axios_code := None;
                 axios_message := js "Request failed with status code 0";
                 response :=
                   Some {| status := 0;
                           data := {| data_error_message := None;
                                      data_message := None;
                                      data_error_details := JUndefined;
                                      data_details := JUndefined;
                                      data_meta_requestId := None |};
                           header_x_request_id := None |} |}))
  <> 0%Z.
Proof. vm_compute. discriminate. Qed.

(** The kind and the status code of a classified response, for any number
    in the status field. *)
Lemma handleError_response_kind_status
    (c : option jsstring) (m : jsstring) (r : AxiosResponse) :
  code (handleError
          (Axios {| axios_code := c; axios_message := m; response := Some r |}))
  = Spec.kindOfStatus (status r)
  /\ statusCode
       (handleError
          (Axios {| axios_code := c; axios_message := m; response := Some r |}))
     = (if (status r =? 0)%Z then 500%Z else status r).
Proof.
  unfold handleError. cbn [response].
  split.
  - unfold createVantigeError, newVantigeSDKError. cbn [code].
    apply status_switch_is_fixedTable.
  - reflexivity.
Qed.

(** C1.  For every axios failure that carries an HTTP response,
    [handleError] returns an error whose kind is the fixed table's entry
    for the response status (401 [INVALID_API_KEY], 403
    [INSUFFICIENT_PERMISSIONS], 404 [KNOWLEDGE_BASE_NOT_FOUND], 422
    [VALIDATION_ERROR], 429 [RATE_LIMIT_EXCEEDED], 500
    [INTERNAL_SERVER_ERROR], 503 [SERVICE_UNAVAILABLE], [NETWORK_ERROR]
    for every other status) and whose status code is the response status.
    HTTP statuses are the integers from 100 to 599; the statement is
    proved for every status other than 0. *)
Theorem handleError_http_response
    (c : option jsstring) (m : jsstring) (r : AxiosResponse) :
  status r <> 0%Z ->
  code (handleError
          (Axios {| axios_code := c; axios_message := m; response := Some r |}))
  = Spec.kindOfStatus (status r)
  /\ statusCode
       (handleError
          (Axios {| axios_code := c; axios_message := m; response := Some r |}))
     = status r.
Proof.
  intros Hstatus.
  destruct (handleError_response_kind_status c m r) as [Hkind Hcode].
  split; [exact Hkind|].
  rewrite Hcode. destruct (Z.eqb_spec (status r) 0); [contradiction|].
  reflexivity.
Qed.

Lemma handleError_http_response_witness :
  code (handleError (Scenario.httpError 401)) = INVALID_API_KEY
  /\ statusCode (handleError (Scenario.httpError 401)) = 401%Z.
Proof.
  apply (handleError_http_response None (js "Request failed")
           {| status := 401; data := Scenario.noData;
              header_x_request_id := None |}).
  discriminate.
Defined.

(** C2, as stated, fails: the timeout error is built without a status, so
    it carries the default 500, not 408. *)
Lemma handleError_timeout_status_is_not_408 :
  statusCode
    (handleError
       (Axios {| axios_code := Some (js "ECONNABORTED");
                 axios_message := js "timeout of 30000ms exceeded";
                 response := None |}))
  <> 408%Z.
Proof. vm_compute. discriminate. Qed.

(** C2, amended.  For every axios failure without a response,
    [handleError] returns kind [REQUEST_TIMEOUT] when the failure's code
    is ["ECONNABORTED"] and kind [NETWORK_ERROR] otherwise; in both cases
    no status is supplied and the error carries the default status 500. *)
Theorem handleError_no_response (c : option jsstring) (m : jsstring) :
  (c = Some (js "ECONNABORTED") ->
   code (handleError
           (Axios {| axios_code := c; axios_message := m; response := None |}))
   = REQUEST_TIMEOUT)
  /\ (c <> Some (js "ECONNABORTED") ->
      code (handleError
              (Axios {| axios_code := c; axios_message := m; response := None |}))
      = NETWORK_ERROR)
  /\ statusCode
       (handleError
          (Axios {| axios_code := c; axios_message := m; response := None |}))
     = 500%Z.
Proof.
  unfold handleError. cbn [response axios_code].
  destruct c as [c|].
  - destruct (str_eqb c (js "ECONNABORTED")) eqn:E.
    + repeat split; try reflexivity.
      intros H. apply str_eqb_eq in E. congruence.
    + repeat split; try reflexivity.
      intros [= ->]. rewrite str_eqb_refl in E. discriminate.
  - repeat split; try reflexivity. discriminate.
Qed.

Lemma handleError_no_response_witness :
  code (handleError
          (Axios {| axios_code := Some (js "ECONNABORTED");
                    axios_message := js "timeout of 30000ms exceeded";
                    response := None |}))
  = REQUEST_TIMEOUT
  /\ code (handleError
             (Axios {| axios_code := Some (js "ERR_NETWORK");
                       axios_message := js "Network Error";
                       response := None |}))
     = NETWORK_ERROR.
Proof.
  split.
  - apply (proj1 (handleError_no_response
                    (Some (js "ECONNABORTED"))
                    (js "timeout of 30000ms exceeded"))).
    reflexivity.
  - apply (proj1 (proj2 (handleError_no_response
                           (Some (js "ERR_NETWORK")) (js "Network Error")))).
    vm_compute. discriminate.
Defined.

(** C3.  When a request fails with an error whose kind is one of
    [INVALID_API_KEY], [INSUFFICIENT_PERMISSIONS], [VALIDATION_ERROR],
    [KNOWLEDGE_BASE_NOT_FOUND], the executor throws that error at once,
    whatever the attempt number [k] and the budget left: that failure costs
    exactly one transport invocation, the last event of the trace, and the
    logical call has made [k + 1] invocations in all. *)
Theorem executeWithRetry_never_retries_caller_errors
    (this : VantigeHttpClient) (req : Request) (k : nat) (raw : thrown) :
  (Z.of_nat k <= retries (config this))%Z ->
  (forall i, (i < k)%nat -> Spec.failsRetryably this req i) ->
  client this k req = Throw raw ->
  In (code (handleError raw))
     [ INVALID_API_KEY; INSUFFICIENT_PERMISSIONS; VALIDATION_ERROR;
       KNOWLEDGE_BASE_NOT_FOUND ] ->
  fst (executeWithRetry this (send this req) fresh)
  = Throw (SDKError (handleError raw))
  /\ snd (executeWithRetry this (send this req) fresh)
     = Spec.failedAttempts req 0 k ++ [Sent req]
  /\ sentCount (snd (executeWithRetry this (send this req) fresh)) = S k.
Proof.
  intros Hk Hfail Hraw Hkind.
  rewrite (executeWithRetry_failures Hk Hfail).
  rewrite retryLoop_fatal with (raw := raw).
  - cbn [fst snd]. repeat split.
    rewrite sentCount_app, sentCount_failedAttempts. cbn. lia.
  - now rewrite sentCount_failedAttempts.
  - apply includes_In. exact Hkind.
Qed.

Lemma executeWithRetry_never_retries_caller_errors_witness :
  fst (executeWithRetry
         (Scenario.httpClientWith (Scenario.alwaysFail (Scenario.httpError 401)) 3)
         (send (Scenario.httpClientWith
                  (Scenario.alwaysFail (Scenario.httpError 401)) 3)
               (GET (js "/test")))
         fresh)
  = Throw (SDKError (handleError (Scenario.httpError 401)))
  /\ sentCount
       (snd (executeWithRetry
               (Scenario.httpClientWith
                  (Scenario.alwaysFail (Scenario.httpError 401)) 3)
               (send (Scenario.httpClientWith
                        (Scenario.alwaysFail (Scenario.httpError 401)) 3)
                     (GET (js "/test")))
               fresh))
     = 1%nat.
Proof.
  assert (H := @executeWithRetry_never_retries_caller_errors
                 (Scenario.httpClientWith
                    (Scenario.alwaysFail (Scenario.httpError 401)) 3)
                 (GET (js "/test")) 0 (Scenario.httpError 401)).
  destruct H as (H1 & _ & H3).
  - vm_compute. discriminate.
  - intros i Hi. exfalso. inversion Hi.
  - reflexivity.
  - left. reflexivity.
  - split; assumption.
Defined.

(** C4.  With [retries = N >= 0]: if every one of the first [N + 1]
    requests fails with a retryable kind, the executor makes exactly
    [N + 1] transport invocations and throws the classified error of the
    last one; if the first [k <= N] requests fail with a retryable kind and
    the next one succeeds, its result is returned after exactly [k + 1]
    invocations. *)
Theorem executeWithRetry_attempt_budget
    (this : VantigeHttpClient) (req : Request) :
  (0 <= retries (config this))%Z ->
  ((forall i, (i <= Z.to_nat (retries (config this)))%nat ->
              Spec.failsRetryably this req i) ->
   exists raw,
     client this (Z.to_nat (retries (config this))) req = Throw raw
     /\ fst (executeWithRetry this (send this req) fresh)
        = Throw (SDKError (handleError raw))
     /\ sentCount (snd (executeWithRetry this (send this req) fresh))
        = S (Z.to_nat (retries (config this))))
  /\ (forall (k : nat) (v : value),
        (k <= Z.to_nat (retries (config this)))%nat ->
        (forall i, (i < k)%nat -> Spec.failsRetryably this req i) ->
        client this k req = Return v ->
        fst (executeWithRetry this (send this req) fresh) = Return v
        /\ sentCount (snd (executeWithRetry this (send this req) fresh))
           = S k).
Proof.
  intros HN. split.
  - intros Hfail.
    set (N := Z.to_nat (retries (config this))).
    destruct (Hfail N (Nat.le_refl N)) as (raw & Hraw & Hinc).
    exists raw. split; [exact Hraw|].
    rewrite (@executeWithRetry_failures this req N) by
      (try (intros i Hi; apply Hfail); unfold N; lia).
    replace (Z.of_nat N) with (retries (config this)) by (unfold N; lia).
    rewrite retryLoop_exhausted with (raw := raw);
      [| now rewrite sentCount_failedAttempts | exact Hinc].
    cbn [fst snd]. split; [reflexivity|].
    rewrite sentCount_app, sentCount_failedAttempts. cbn. lia.
  - intros k v Hk Hfail Hok.
    rewrite (@executeWithRetry_failures this req k) by (auto; lia).
    rewrite retryLoop_success with (v := v)
      by now rewrite sentCount_failedAttempts.
    cbn [fst snd]. split; [reflexivity|].
    rewrite sentCount_app, sentCount_failedAttempts. cbn. lia.
Qed.

Lemma executeWithRetry_attempt_budget_witness :
  (* three network errors, then a success, [retries = 3] *)
  (fst (executeWithRetry
          (Scenario.httpClientWith
             (Scenario.failThenSucceed 3 Scenario.networkError) 3)
          (send (Scenario.httpClientWith
                   (Scenario.failThenSucceed 3 Scenario.networkError) 3)
                (GET (js "/test")))
          fresh)
   = Return Scenario.successResponse
   /\ sentCount
        (snd (executeWithRetry
                (Scenario.httpClientWith
                   (Scenario.failThenSucceed 3 Scenario.networkError) 3)
                (send (Scenario.httpClientWith
                         (Scenario.failThenSucceed 3 Scenario.networkError) 3)
                      (GET (js "/test")))
                fresh))
      = 4%nat)
  (* nothing but network errors, [retries = 2] *)
  /\ exists raw,
       fst (executeWithRetry
              (Scenario.httpClientWith
                 (Scenario.alwaysFail Scenario.networkError) 2)
              (send (Scenario.httpClientWith
                       (Scenario.alwaysFail Scenario.networkError) 2)
                    (GET (js "/test")))
              fresh)
       = Throw (SDKError (handleError raw))
       /\ sentCount
            (snd (executeWithRetry
                    (Scenario.httpClientWith
                       (Scenario.alwaysFail Scenario.networkError) 2)
                    (send (Scenario.httpClientWith
                             (Scenario.alwaysFail Scenario.networkError) 2)
                          (GET (js "/test")))
                    fresh))
          = 3%nat.
Proof.
  split.
  - apply (proj2 (@executeWithRetry_attempt_budget
                    (Scenario.httpClientWith
                       (Scenario.failThenSucceed 3 Scenario.networkError) 3)
                    (GET (js "/test")) ltac:(vm_compute; discriminate))
             3%nat Scenario.successResponse).
    + vm_compute. lia.
    + intros i Hi. exists Scenario.networkError.
      destruct i as [|[|[|i]]]; [split; reflexivity ..|lia].
    + reflexivity.
  - destruct (proj1 (@executeWithRetry_attempt_budget
                       (Scenario.httpClientWith
                          (Scenario.alwaysFail Scenario.networkError) 2)
                       (GET (js "/test")) ltac:(vm_compute; discriminate)))
      as (raw & _ & H1 & H2).
    + intros i _. exists Scenario.networkError. split; reflexivity.
    + exists raw. split; assumption.
Defined.

Lemma failedAttempts_snoc (req : Request) (k : nat) :
  Spec.failedAttempts req 0 (S k)
  = Spec.failedAttempts req 0 k
    ++ [Sent req; Slept (backoffDelay (Z.of_nat k))].
Proof.
  unfold Spec.failedAttempts.
  rewrite seq_S, flat_map_app. cbn. reflexivity.
Qed.

(** C5.  If the first [k >= 1] requests of a logical call fail with a
    retryable kind and [k] is within the retry budget, then the [k]
    failed invocations are followed by a delay of exactly
    [min(1000 * 2^(k-1), 10000)] milliseconds, and attempt [k] (the [k]-th
    retry) is sent right after that delay. *)
Theorem backoff_delay_before_attempt
    (this : VantigeHttpClient) (req : Request) (k : nat) :
  (1 <= k)%nat ->
  (Z.of_nat k <= retries (config this))%Z ->
  (forall i, (i < k)%nat -> Spec.failsRetryably this req i) ->
  exists before rest,
    snd (executeWithRetry this (send this req) fresh)
    = before
      ++ Slept (Z.min (1000 * 2 ^ (Z.of_nat k - 1)) 10000)
      :: Sent req :: rest
    /\ sentCount before = k.
Proof.
  intros Hk1 Hk Hfail.
  rewrite (executeWithRetry_failures Hk Hfail).
  destruct (retryLoop_sends_first this req
              (Z.to_nat (retries (config this)) - k) (Z.of_nat k) None
              (Spec.failedAttempts req 0 k)) as [rest Hrest].
  destruct k as [|k]; [lia|].
  exists (Spec.failedAttempts req 0 k ++ [Sent req]), rest. split.
  - rewrite Hrest, failedAttempts_snoc, <- !app_assoc. cbn [app].
    unfold backoffDelay.
    replace (Z.of_nat (S k) - 1)%Z with (Z.of_nat k) by lia.
    reflexivity.
  - rewrite sentCount_app, sentCount_failedAttempts. cbn. lia.
Qed.

Lemma backoff_delay_before_attempt_witness :
  exists before rest,
    snd (executeWithRetry
           (Scenario.httpClientWith
              (Scenario.alwaysFail (Scenario.httpError 503)) 5)
           (send (Scenario.httpClientWith
                    (Scenario.alwaysFail (Scenario.httpError 503)) 5)
                 (GET (js "/test")))
           fresh)
    = before ++ Slept 10000 :: Sent (GET (js "/test")) :: rest
    /\ sentCount before = 5%nat.
Proof.
  apply (@backoff_delay_before_attempt
           (Scenario.httpClientWith
              (Scenario.alwaysFail (Scenario.httpError 503)) 5)
           (GET (js "/test")) 5).
  - lia.
  - vm_compute. discriminate.
  - intros i _. exists (Scenario.httpError 503). split; reflexivity.
Defined.

End HttpTheorems.

(* ================================================================== *)
(** * Error taxonomy: properties *)
(* ================================================================== *)

Section ErrorTheorems.

(** C8, as stated, fails twice over.  The code has no table of default
    statuses: an error built from the kind alone has status 500 whatever
    the kind, also for a kind the fixed table lists under another status
    ([INVALID_API_KEY], 401).  And a non-array payload becomes a
    one-element list only if it is truthy: the payload [0] gives the empty
    list. *)
Lemma createVantigeError_defaults_not_as_stated :
  statusCode (createVantigeError INVALID_API_KEY None None JUndefined None)
  <> Spec.canonicalStatus INVALID_API_KEY
  /\ details (createVantigeError INVALID_API_KEY None None (JNum 0) None)
     <> [JNum 0].
Proof. split; vm_compute; discriminate. Qed.

(** C8, amended.  [createVantigeError] is a total function, and for every
    kind of the enumeration: [toJSON] of the error gives back the kind
    (whatever the other arguments); built from the kind alone, the error
    has the kind's message of [ErrorMessages], status code 500 (the one
    default, the same for every kind) and no details; a details payload
    that is an object, or any other truthy non-array value, becomes a
    one-element list, an array is kept as it is, and [undefined], [null]
    and the other falsy values become the empty list. *)
Theorem createVantigeError_defaults (kind : VantigeErrorCode) :
  (forall msg st d rid,
      json_code (toJSON (createVantigeError kind msg st d rid)) = kind)
  /\ message (createVantigeError kind None None JUndefined None)
     = ErrorMessages kind
  /\ statusCode (createVantigeError kind None None JUndefined None) = 500%Z
  /\ details (createVantigeError kind None None JUndefined None) = []
  /\ (forall fields,
        details (createVantigeError kind None None (JObj fields) None)
        = [JObj fields])
  /\ (forall d, isArray d = false -> truthy d = true ->
        details (createVantigeError kind None None d None) = [d])
  /\ (forall items,
        details (createVantigeError kind None None (JArr items) None) = items)
  /\ (forall d, isArray d = false -> truthy d = false ->
        details (createVantigeError kind None None d None) = []).
Proof.
  repeat split; try reflexivity.
  - intros d Harr Htr. unfold createVantigeError, newVantigeSDKError.
    cbn [details]. destruct d; try discriminate; cbn in *; now rewrite ?Htr.
  - intros d Harr Htr. unfold createVantigeError, newVantigeSDKError.
    cbn [details]. destruct d; try discriminate; cbn in *; now rewrite ?Htr.
Qed.

Lemma createVantigeError_defaults_witness :
  details (createVantigeError VALIDATION_ERROR None None
             (JStr (js "field is missing")) None)
  = [JStr (js "field is missing")]
  /\ details (createVantigeError VALIDATION_ERROR None None JNull None) = [].
Proof.
  split.
  - apply (proj1 (proj2 (proj2 (proj2 (proj2 (proj2
      (createVantigeError_defaults VALIDATION_ERROR)))))));
      reflexivity.
  - apply (proj2 (proj2 (proj2 (proj2 (proj2 (proj2 (proj2
      (createVantigeError_defaults VALIDATION_ERROR))))))));
      reflexivity.
Defined.

End ErrorTheorems.

(* ================================================================== *)
(** * Domain operations: properties *)
(* ================================================================== *)

Section ClientTheorems.

(** C7, as stated, fails for an identifier of whitespace only: [query]
    tests [!corpusId] without trimming, so the identifier ["   "], blank
    as it is, passes the check and the request is sent. *)
Lemma query_sends_whitespace_identifier :
  trim (js "   ") = []
  /\ query {| client_auth := Scenario.testAuth;
              httpClient := Scenario.httpClientWith Scenario.alwaysSucceed 3 |}
           (js "   ")
           {| queryText := js "hello"; topK := None;
              includeMetadata := None; useGeneration := None;
              fieldMapping := None |}
           fresh
     = (Return Scenario.successResponse,
        [Sent (POST (js "/api/v1/knowledge-base/   /query")
                    (JObj [(js "query", JStr (js "hello"))]))]).
Proof. split; vm_compute; reflexivity. Qed.

(** C7, amended.  When the corpus identifier is the empty string, or the
    query text is blank after trimming, or the trimmed query text is longer
    than 1000 units, or a supplied [topK] lies outside [1, 100] (0
    included), [query] throws a [VALIDATION_ERROR] and leaves the trace as
    it was: no request reaches the transport and nothing is retried. *)
Theorem query_rejects_invalid_input_locally
    (this : VantigeClient) (corpusId : jsstring) (params : QueryParams)
    (w : World) :
  corpusId = []
  \/ trim (queryText params) = []
  \/ (1000 < jslength (trim (queryText params)))%Z
  \/ (exists k, topK params = Some k /\ (k < 1 \/ 100 < k)%Z) ->
  exists e,
    query this corpusId params w = (Throw (SDKError e), w)
    /\ code e = VALIDATION_ERROR.
Proof.
  intros H. unfold query.
  destruct (isEmpty corpusId) eqn:Eid;
    [eexists; split; reflexivity|].
  destruct (isEmpty (queryText params)
            || (jslength (trim (queryText params)) =? 0)%Z) eqn:Eq;
    [eexists; split; reflexivity|].
  destruct (jslength (queryText params) >? 1000)%Z eqn:Elen;
    [eexists; split; reflexivity|].
  destruct (match topK params with
            | Some k => (k <? 1)%Z || (k >? 100)%Z
            | None => false
            end) eqn:Ek;
    [eexists; split; reflexivity|].
  exfalso.
  apply orb_false_iff in Eq as [_ Etrim].
  apply Z.eqb_neq in Etrim.
  pose proof (trim_length (queryText params)) as Htrim.
  rewrite Z.gtb_ltb in Elen. apply Z.ltb_ge in Elen.
  destruct H as [-> | [Hblank | [Hlong | (k & Hk & Hout)]]].
  - discriminate Eid.
  - rewrite Hblank in Etrim. apply Etrim. reflexivity.
  - lia.
  - rewrite Hk in Ek. apply orb_false_iff in Ek as [E1 E2].
    apply Z.ltb_ge in E1. rewrite Z.gtb_ltb in E2. apply Z.ltb_ge in E2. lia.
Qed.

Lemma query_rejects_invalid_input_locally_witness :
  exists e,
    query {| client_auth := Scenario.testAuth;
             httpClient := Scenario.httpClientWith Scenario.alwaysSucceed 3 |}
          (js "kb_1234567")
          {| queryText := List.repeat 97%N 1001; topK := None;
             includeMetadata := None; useGeneration := None;
             fieldMapping := None |}
          fresh
    = (Throw (SDKError e), fresh)
    /\ code e = VALIDATION_ERROR.
Proof.
  apply query_rejects_invalid_input_locally.
  right. right. left. vm_compute. reflexivity.
Defined.

(** A side remark on configuration: the executor's theorems speak of its
    own [config.retries]; the [VantigeClient] constructor fills that field
    with [config.retries || 3], so a configured 0 reaches the executor
    as 3. *)
Remark constructor_retries_default (config : VantigeConfig)
    (auth : VantigeAuth) :
  cfg_retries config = Some 0%Z \/ cfg_retries config = None ->
  retries (httpClientConfigOf config auth) = 3%Z.
Proof. intros [H | H]; unfold httpClientConfigOf; cbn; rewrite H; reflexivity. Qed.

Lemma checkSuccess_keeps_trace (failure : jsstring) (response : value)
    (w : World) :
  snd (checkSuccess failure response w) = w.
Proof.
  unfold checkSuccess.
  destruct (notSuccess response) as [[|]|e]; reflexivity.
Qed.





End ClientTheorems.

(* ================================================================== *)
(** * Validation helpers: properties *)
(* ================================================================== *)

Section TrimFacts.

Lemma trimStart_snoc (l : jsstring) (c : N) :
  trimStart (l ++ [c])
  = match trimStart l with
    | [] => if isWhiteSpace c then [] else [c]
    | r => r ++ [c]
    end.
Proof.
  induction l as [|d l IH]; simpl.
  - destruct (isWhiteSpace c); reflexivity.
  - destruct (isWhiteSpace d); [exact IH | reflexivity].
Qed.

(** [trimEnd] read from the front. *)
Lemma trimEnd_cons (c : N) (s : jsstring) :
  trimEnd (c :: s)
  = match trimEnd s with
    | [] => if isWhiteSpace c then [] else [c]
    | r => c :: r
    end.
Proof.
  unfold trimEnd. simpl rev. rewrite trimStart_snoc.
  destruct (trimStart (rev s)) as [|d r] eqn:E.
  - destruct (isWhiteSpace c); reflexivity.
  - rewrite rev_app_distr. simpl.
    destruct (rev r ++ [d]) eqn:E'; [|reflexivity].
    destruct (rev r); discriminate.
Qed.

(** A string is its own [trimEnd] exactly when it is empty or, from the
    front, a unit followed by such a string, a lone unit being ink. *)
Lemma trimEnd_fixed_cons (c : N) (s : jsstring) :
  trimEnd (c :: s) = c :: s ->
  (s = [] /\ isWhiteSpace c = false) \/ (s <> [] /\ trimEnd s = s).
Proof.
  rewrite trimEnd_cons. destruct (trimEnd s) as [|d r] eqn:E.
  - destruct (isWhiteSpace c); [discriminate|].
    intros [= <-]. left. split; reflexivity.
  - intros [= <-]. right. split; [discriminate | reflexivity].
Qed.

Lemma trimEnd_idempotent (s : jsstring) : trimEnd (trimEnd s) = trimEnd s.
Proof.
  induction s as [|c s IH]; [reflexivity|].
  rewrite trimEnd_cons. destruct (trimEnd s) as [|d r] eqn:E.
  - destruct (isWhiteSpace c) eqn:Ec; [reflexivity|].
    rewrite trimEnd_cons. simpl. now rewrite Ec.
  - rewrite trimEnd_cons, IH. reflexivity.
Qed.

Lemma trimStart_no_leading (s : jsstring) :
  Tidy.noLeadingWhiteSpace (trimStart s) = true.
Proof.
  induction s as [|c s IH]; [reflexivity|]. simpl.
  destruct (isWhiteSpace c) eqn:Ec; [exact IH | simpl; now rewrite Ec].
Qed.

Lemma trimStart_fixed (s : jsstring) :
  Tidy.noLeadingWhiteSpace s = true -> trimStart s = s.
Proof.
  destruct s as [|c s]; [reflexivity|]. simpl.
  destruct (isWhiteSpace c); [discriminate | reflexivity].
Qed.

Lemma trimEnd_keeps_no_leading (s : jsstring) :
  Tidy.noLeadingWhiteSpace s = true ->
  Tidy.noLeadingWhiteSpace (trimEnd s) = true.
Proof.
  destruct s as [|c s]; [reflexivity|]. simpl. intros Hc.
  rewrite trimEnd_cons. destruct (trimEnd s).
  - destruct (isWhiteSpace c) eqn:Ec; [discriminate Hc | simpl].
    now rewrite Ec.
  - exact Hc.
Qed.

Lemma trim_no_leading (s : jsstring) :
  Tidy.noLeadingWhiteSpace (trim s) = true.
Proof. apply trimEnd_keeps_no_leading, trimStart_no_leading. Qed.

Lemma trim_trimEnd_fixed (s : jsstring) : trimEnd (trim s) = trim s.
Proof. apply trimEnd_idempotent. Qed.

Lemma inked_trimStart (s : jsstring) :
  Tidy.inked (trimStart s) = Tidy.inked s.
Proof.
  induction s as [|c s IH]; [reflexivity|]. simpl.
  destruct (isWhiteSpace c) eqn:Ec; simpl; rewrite ?Ec; simpl; auto.
Qed.

Lemma inked_rev (s : jsstring) : Tidy.inked (rev s) = rev (Tidy.inked s).
Proof.
  unfold Tidy.inked. induction s as [|c s IH]; [reflexivity|]. simpl.
  rewrite filter_app, IH. simpl.
  destruct (isWhiteSpace c); simpl; [now rewrite app_nil_r | reflexivity].
Qed.

Lemma inked_trim (s : jsstring) : Tidy.inked (trim s) = Tidy.inked s.
Proof.
  unfold trim, trimEnd.
  rewrite inked_rev, inked_trimStart, inked_rev, rev_involutive.
  apply inked_trimStart.
Qed.

Lemma inked_collapseFrom (b : bool) (s : jsstring) :
  Tidy.inked (collapseFrom b s) = Tidy.inked s.
Proof.
  revert b. induction s as [|c s IH]; intros b; [reflexivity|]. simpl.
  destruct (isWhiteSpace c) eqn:Ec.
  - destruct b; simpl; [apply IH | apply IH].
  - simpl. rewrite Ec. simpl. now rewrite IH.
Qed.

Lemma collapseFrom_length (b : bool) (s : jsstring) :
  (List.length (collapseFrom b s) <= List.length s)%nat.
Proof.
  revert b. induction s as [|c s IH]; intros b; simpl; [lia|].
  destruct (isWhiteSpace c); [destruct b|]; simpl;
    try (specialize (IH true); lia); specialize (IH false); lia.
Qed.

End TrimFacts.

Section SanitizeFacts.

Lemma collapseFrom_head (s : jsstring) :
  trimEnd s = s -> s <> [] ->
  exists d r, collapseFrom true s = d :: r /\ isWhiteSpace d = false.
Proof.
  induction s as [|c s IH]; intros Hfix Hne; [congruence|].
  simpl. destruct (isWhiteSpace c) eqn:Ec.
  - destruct (trimEnd_fixed_cons Hfix) as [[_ Hc] | [Hs Hfix']];
      [congruence | now apply IH].
  - exists c, (collapseFrom false s). split; [reflexivity | exact Ec].
Qed.

Lemma collapseFrom_singleSpaced (s : jsstring) :
  trimEnd s = s -> forall b, Tidy.singleSpaced (collapseFrom b s) = true.
Proof.
  induction s as [|c s IH]; intros Hfix b; [reflexivity|].
  destruct (trimEnd_fixed_cons Hfix) as [[-> Hc] | [Hs Hfix']].
  - simpl. rewrite Hc. simpl. rewrite Hc. reflexivity.
  - cbn [collapseFrom]. destruct (isWhiteSpace c) eqn:Ec.
    + destruct b; [now apply IH|].
      destruct (collapseFrom_head Hfix' Hs) as (d & r & Hd & Hw).
      pose proof (IH Hfix' true) as Hrec. rewrite Hd in *.
      change (Tidy.singleSpaced (32%N :: d :: r))
        with (negb (isWhiteSpace d) && Tidy.singleSpaced (d :: r)).
      now rewrite Hw, Hrec.
    + cbn [Tidy.singleSpaced]. rewrite Ec. now apply IH.
Qed.

Lemma collapseFrom_no_leading (s : jsstring) :
  Tidy.noLeadingWhiteSpace s = true ->
  Tidy.noLeadingWhiteSpace (collapseFrom false s) = true.
Proof.
  destruct s as [|c s]; [reflexivity|]. simpl.
  destruct (isWhiteSpace c) eqn:Ec; [discriminate|].
  intros _. simpl. now rewrite Ec.
Qed.

Lemma singleSpaced_collapseFrom (s : jsstring) :
  Tidy.singleSpaced s = true ->
  collapseFrom false s = s
  /\ (Tidy.noLeadingWhiteSpace s = true -> collapseFrom true s = s).
Proof.
  induction s as [|c s IH]; [split; reflexivity|].
  cbn [Tidy.singleSpaced]. intros H. apply andb_true_iff in H as [Hc Hs].
  destruct (IH Hs) as [IH1 IH2]. simpl.
  destruct (isWhiteSpace c) eqn:Ec.
  - apply andb_true_iff in Hc as [Hsp Hnext]. apply N.eqb_eq in Hsp. subst c.
    split; [|discriminate].
    destruct s as [|d s]; [discriminate|].
    rewrite IH2 by exact Hnext. reflexivity.
  - rewrite IH1. split; reflexivity.
Qed.

Lemma singleSpaced_trimEnd (s : jsstring) :
  Tidy.singleSpaced s = true -> trimEnd s = s.
Proof.
  induction s as [|c s IH]; [reflexivity|].
  cbn [Tidy.singleSpaced]. intros H. apply andb_true_iff in H as [Hc Hs].
  rewrite trimEnd_cons, (IH Hs).
  destruct s as [|d s]; [|reflexivity].
  destruct (isWhiteSpace c); [|reflexivity].
  apply andb_true_iff in Hc as [_ Hc]. discriminate.
Qed.

Lemma sanitizeQuery_is_tidy (q : jsstring) :
  Tidy.tidy (sanitizeQuery q) = true.
Proof.
  unfold Tidy.tidy, sanitizeQuery, replaceWhiteSpaceRuns.
  rewrite collapseFrom_no_leading by apply trim_no_leading.
  rewrite collapseFrom_singleSpaced by apply trim_trimEnd_fixed.
  reflexivity.
Qed.

Lemma tidy_is_fixed (s : jsstring) :
  Tidy.tidy s = true -> sanitizeQuery s = s.
Proof.
  unfold Tidy.tidy. intros H. apply andb_true_iff in H as [Hlead Hsp].
  unfold sanitizeQuery, replaceWhiteSpaceRuns, trim.
  rewrite (trimStart_fixed _ Hlead), (singleSpaced_trimEnd _ Hsp).
  apply (singleSpaced_collapseFrom _ Hsp).
Qed.

End SanitizeFacts.

Section ValidationTheorems.

(** X1.  [sanitizeQuery] returns a tidy string: no whitespace at either
    end, and every whitespace unit inside is a single space between two
    units that are not whitespace.  A string that is tidy already is
    returned unchanged, so sanitizing twice is sanitizing once. *)
Theorem sanitizeQuery_normal_form (q : jsstring) :
  Tidy.tidy (sanitizeQuery q) = true
  /\ sanitizeQuery (sanitizeQuery q) = sanitizeQuery q
  /\ (Tidy.tidy q = true -> sanitizeQuery q = q).
Proof.
  repeat split.
  - apply sanitizeQuery_is_tidy.
  - apply tidy_is_fixed, sanitizeQuery_is_tidy.
  - apply tidy_is_fixed.
Qed.

Lemma sanitizeQuery_normal_form_witness :
  sanitizeQuery (js "how do I get started?") = js "how do I get started?".
Proof.
  apply (proj2 (proj2 (sanitizeQuery_normal_form (js "how do I get started?")))).
  vm_compute. reflexivity.
Defined.

(** X2.  [sanitizeQuery] only touches whitespace: the units that are not
    whitespace come out unchanged and in order, the result is never longer
    than the input, and it is empty exactly when the input holds nothing
    but whitespace. *)
Theorem sanitizeQuery_keeps_ink (q : jsstring) :
  Tidy.inked (sanitizeQuery q) = Tidy.inked q
  /\ (jslength (sanitizeQuery q) <= jslength q)%Z
  /\ isEmpty (sanitizeQuery q) = isEmpty (Tidy.inked q).
Proof.
  assert (Hink : Tidy.inked (sanitizeQuery q) = Tidy.inked q).
  { unfold sanitizeQuery, replaceWhiteSpaceRuns.
    now rewrite inked_collapseFrom, inked_trim. }
  repeat split; [exact Hink | |].
  - pose proof (trim_length q).
    pose proof (collapseFrom_length false (trim q)).
    unfold sanitizeQuery, replaceWhiteSpaceRuns, jslength in *. lia.
  - rewrite <- Hink.
    pose proof (sanitizeQuery_is_tidy q) as Ht.
    destruct (sanitizeQuery q) as [|c r]; [reflexivity|].
    unfold Tidy.tidy in Ht. apply andb_true_iff in Ht as [Hlead _].
    simpl in Hlead. simpl.
    destruct (isWhiteSpace c); [discriminate | reflexivity].
Qed.

End ValidationTheorems.

(* ================================================================== *)
(** * Credential guard: further properties *)
(* ================================================================== *)

Section KeyFacts.

Lemma split_no_separator (sep : N) (s : jsstring) :
  Forall (fun c => c <> sep) s -> split sep s = [s].
Proof.
  induction 1 as [|c s Hc _ IH]; [reflexivity|].
  simpl. rewrite (proj2 (N.eqb_neq c sep) Hc), IH. reflexivity.
Qed.

Lemma split_app_separator (sep : N) (a b : jsstring) :
  Forall (fun c => c <> sep) a ->
  split sep (a ++ sep :: b) = a :: split sep b.
Proof.
  induction 1 as [|c a Hc _ IH]; simpl.
  - now rewrite N.eqb_refl.
  - rewrite (proj2 (N.eqb_neq c sep) Hc), IH. reflexivity.
Qed.

Lemma isAlnum_not_underscore (c : N) : isAlnum c = true -> c <> 95%N.
Proof. intros H ->. vm_compute in H. discriminate. Qed.

Lemma isAlnum_not_star (c : N) : isAlnum c = true -> c <> 42%N.
Proof. intros H ->. vm_compute in H. discriminate. Qed.

(** The verdict of [validateKeyFormat] is the pattern's. *)
Lemma isValid_is_keyPattern (s : jsstring) :
  isValid (validateKeyFormat s) = keyPattern_test s.
Proof.
  destruct s as [|c s]; [reflexivity|].
  set (k := c :: s). unfold validateKeyFormat. fold k.
  cbn [k]. fold k.
  destruct (keyPattern_test k) eqn:Epat.
  - destruct (keyPattern_test_implies k Epat) as (Hpre & Hlen & _).
    unfold validateApiKey in Hpre. rewrite <- negb_orb, Hpre.
    destruct (Z.ltb_spec (jslength k) 40) as [Hlt|_]; [lia|]. reflexivity.
  - destruct (negb (startsWith k (js "vk_live_"))
              && negb (startsWith k (js "vk_test_")));
      destruct (jslength k <? 40)%Z; reflexivity.
Qed.

(** The two prefixes exclude each other. *)
Lemma prefixes_exclusive (s : jsstring) :
  startsWith s (js "vk_test_") = true ->
  startsWith s (js "vk_live_") = false.
Proof.
  intros H. apply startsWith_stripPrefix in H as [r H].
  apply stripPrefix_Some in H. subst s. reflexivity.
Qed.

(** A well-shaped key split in its three parts. *)
Lemma wellShaped_parts (s : jsstring) :
  Spec.wellShaped s ->
  exists env secret,
    (env = js "live" \/ env = js "test")
    /\ s = js "vk_" ++ env ++ js "_" ++ secret
    /\ (32 <= List.length secret)%nat
    /\ forallb isAlnum secret = true
    /\ split 95%N s = [js "vk"; env; secret].
Proof.
  intros (env & secret & Henv & -> & Hlen & Hal).
  exists env, secret. repeat split; auto.
  - apply forallb_forall. now apply Forall_forall.
  - assert (Hsecret : split 95%N secret = [secret]).
    { apply split_no_separator.
      eapply Forall_impl; [|exact Hal]. apply isAlnum_not_underscore. }
    change (js "vk_" ++ env ++ js "_" ++ secret)
      with (js "vk" ++ 95%N :: env ++ 95%N :: secret).
    rewrite split_app_separator
      by (repeat constructor; discriminate).
    rewrite split_app_separator
      by (destruct Henv as [-> | ->]; repeat constructor; discriminate).
    now rewrite Hsecret.
Qed.

Lemma maskApiKey_long (this : VantigeAuth) :
  (12 <= jslength (apiKey this))%Z ->
  maskApiKey this
  = firstn 8 (apiKey this)
    ++ List.repeat 42%N (List.length (apiKey this) - 12)
    ++ skipn (List.length (apiKey this) - 4) (apiKey this).
Proof.
  intros H. unfold maskApiKey.
  destruct (Z.ltb_spec (jslength (apiKey this)) 12) as [Hlt|_]; [lia|].
  rewrite substring_prefix by lia.
  rewrite substringFrom_suffix by lia.
  unfold repeatStr. change (js "*") with [42%N]. rewrite repeatStr_unit.
  unfold jslength in *.
  replace (Z.to_nat (Z.of_nat (List.length (apiKey this)) - 12))
    with (List.length (apiKey this) - 12)%nat by lia.
  replace (Z.to_nat (Z.of_nat (List.length (apiKey this)) - 4))
    with (List.length (apiKey this) - 4)%nat by lia.
  reflexivity.
Qed.

(** What the constructor accepts, and what it builds. *)
Lemma validateAndSetApiKey_Return (s : jsstring) (a : VantigeAuth) :
  validateAndSetApiKey s = Return a ->
  keyPattern_test s = true
  /\ a = {| apiKey := s; isTestKey := startsWith s (js "vk_test_") |}.
Proof.
  unfold validateAndSetApiKey. destruct s as [|c s]; [discriminate|].
  destruct (validateApiKey (c :: s)); [|discriminate]. cbn [negb].
  destruct (keyPattern_test (c :: s)); [|discriminate]. cbn [negb].
  intros [= <-]. split; reflexivity.
Qed.

Lemma validateAndSetApiKey_accepts (s : jsstring) :
  keyPattern_test s = true ->
  validateAndSetApiKey s
  = Return {| apiKey := s; isTestKey := startsWith s (js "vk_test_") |}.
Proof.
  intros H. destruct (keyPattern_test_implies s H) as (Hpre & _ & Hne).
  unfold validateAndSetApiKey. destruct s as [|c s]; [congruence|].
  now rewrite Hpre, H.
Qed.

End KeyFacts.

Section KeyTheorems.

(** X3.  [extractKeyInfo] returns [null] exactly for the keys
    [validateKeyFormat] rejects.  For a valid key it returns the prefix
    and the key id that, put together, give the key back; the prefix is
    [vk_test_] or [vk_live_] and [environment] is the word inside it, the
    same environment [validateKeyFormat] reports; the key id is the
    secret, at least 32 alphanumeric units. *)
Theorem extractKeyInfo_round_trip (s : jsstring) :
  (isValid (validateKeyFormat s) = false -> extractKeyInfo s = None)
  /\ (isValid (validateKeyFormat s) = true ->
      exists info,
        extractKeyInfo s = Some info
        /\ info_prefix info ++ info_keyId info = s
        /\ info_prefix info = js "vk_" ++ info_environment info ++ js "_"
        /\ ((info_environment info = js "test"
             /\ environment (validateKeyFormat s) = Some test)
            \/ (info_environment info = js "live"
                /\ environment (validateKeyFormat s) = Some live))
        /\ (32 <= List.length (info_keyId info))%nat
        /\ forallb isAlnum (info_keyId info) = true
        /\ info_isValid info = true).
Proof.
  split.
  - intros H. unfold extractKeyInfo. now rewrite H.
  - intros H. unfold extractKeyInfo. rewrite H. cbn [negb].
    pose proof H as Hpat. rewrite isValid_is_keyPattern in Hpat.
    destruct (wellShaped_parts (proj1 (keyPattern_test_wellShaped s) Hpat))
      as (env & secret & Henv & Hs & Hlen & Hal & Hsplit).
    rewrite Hsplit. cbn [List.length Nat.eqb negb nth].
    destruct secret as [|c secret]; [simpl in Hlen; lia|].
    cbn [isEmpty]. eexists. split; [reflexivity|].
    cbn [info_prefix info_keyId info_environment info_isValid].
    repeat split; auto.
    + rewrite Hs. change (js "vk") with [118%N; 107%N].
      rewrite <- !app_assoc. reflexivity.
    + assert (Henvd : environment (validateKeyFormat s)
                      = Some (if startsWith s (js "vk_test_")
                              then test else live)).
      { pose proof H as H'. unfold validateKeyFormat in H' |- *.
        destruct s as [|d s']; [discriminate H'|].
        cbn [isValid environment] in *. now rewrite H'. }
      rewrite Henvd, Hs.
      destruct Henv as [-> | ->]; [right | left]; split; reflexivity.
Qed.

Lemma extractKeyInfo_round_trip_witness :
  extractKeyInfo (js "vk_test") = None
  /\ exists info,
       extractKeyInfo (js "vk_live_abcdefghijklmnopqrstuvwxyz123456")
       = Some info
       /\ info_prefix info ++ info_keyId info
          = js "vk_live_abcdefghijklmnopqrstuvwxyz123456".
Proof.
  split.
  - apply (proj1 (extractKeyInfo_round_trip (js "vk_test"))).
    vm_compute. reflexivity.
  - destruct (proj2 (extractKeyInfo_round_trip
                       (js "vk_live_abcdefghijklmnopqrstuvwxyz123456")))
      as (info & H1 & H2 & _).
    + vm_compute. reflexivity.
    + exists info. split; assumption.
Defined.

(** X4.  For a key the constructor accepts: the object holds the key as
    given; [isTest] is true exactly for a [vk_test_] key and [isLive]
    exactly for a [vk_live_] key, never both; and [getEnvironment] is the
    environment [validateKeyFormat] reports for the key. *)
Theorem constructed_auth_environment (s : jsstring) (a : VantigeAuth) :
  validateAndSetApiKey s = Return a ->
  getApiKey a = s
  /\ isTest a = startsWith s (js "vk_test_")
  /\ isLive a = startsWith s (js "vk_live_")
  /\ isLive a = negb (isTest a)
  /\ environment (validateKeyFormat s) = Some (getEnvironment a).
Proof.
  intros H. destruct (validateAndSetApiKey_Return _ H) as [Hpat ->].
  unfold getApiKey, isTest, isLive, getEnvironment.
  cbn [apiKey isTestKey].
  destruct (keyPattern_test_implies s Hpat) as (Hpre & _ & _).
  unfold validateApiKey in Hpre.
  repeat split.
  - destruct (startsWith s (js "vk_test_")) eqn:Et.
    + now rewrite (prefixes_exclusive _ Et).
    + rewrite orb_false_r in Hpre. now rewrite Hpre.
  - pose proof (isValid_is_keyPattern s) as Hv. rewrite Hpat in Hv.
    unfold validateKeyFormat in Hv |- *.
    destruct s as [|d s']; [discriminate Hv|].
    cbn [isValid environment] in *. now rewrite Hv.
Qed.

Lemma constructed_auth_environment_witness :
  isLive {| apiKey := js "vk_live_abcdefghijklmnopqrstuvwxyz123456";
            isTestKey := false |}
  = true.
Proof.
  apply (proj1 (proj2 (proj2
    (@constructed_auth_environment
       (js "vk_live_abcdefghijklmnopqrstuvwxyz123456")
       {| apiKey := js "vk_live_abcdefghijklmnopqrstuvwxyz123456";
          isTestKey := false |} eq_refl)))).
Defined.

End KeyTheorems.

Section KeyInfoTheorems.

(** X5.  For a client whose key the constructor accepted, [getKeyInfo]
    shows the environment prefix ([vk_test_] or [vk_live_], in agreement
    with its [environment] field), then stars, at least 28 of them, then
    the last four units of the key; and the masked key is never itself a
    key [validateKeyFormat] accepts. *)
Theorem getKeyInfo_masks_secret
    (s : jsstring) (this : VantigeClient) :
  validateAndSetApiKey s = Return (client_auth this) ->
  maskedKey (getKeyInfo this)
  = (match key_environment (getKeyInfo this) with
     | test => js "vk_test_"
     | live => js "vk_live_"
     end)
    ++ List.repeat 42%N (List.length s - 12)
    ++ skipn (List.length s - 4) s
  /\ (28 <= List.length s - 12)%nat
  /\ key_environment (getKeyInfo this)
     = (if startsWith s (js "vk_test_") then test else live)
  /\ isValid (validateKeyFormat (maskedKey (getKeyInfo this))) = false.
Proof.
  intros H. destruct (validateAndSetApiKey_Return _ H) as [Hpat Ha].
  unfold getKeyInfo, getEnvironment. cbn [maskedKey key_environment].
  rewrite Ha. cbn [isTestKey].
  destruct (keyPattern_test_implies s Hpat) as (_ & Hlen & _).
  unfold jslength in Hlen.
  assert (Hmask :
    maskApiKey {| apiKey := s; isTestKey := startsWith s (js "vk_test_") |}
    = (if startsWith s (js "vk_test_") then js "vk_test_" else js "vk_live_")
      ++ List.repeat 42%N (List.length s - 12)
      ++ skipn (List.length s - 4) s).
  { rewrite maskApiKey_long by (cbn [apiKey]; unfold jslength; lia).
    cbn [apiKey]. f_equal.
    apply keyPattern_test_wellShaped in Hpat.
    destruct Hpat as (env & secret & [-> | ->] & -> & _);
      [reflexivity|].
    change (js "vk_" ++ js "test" ++ js "_" ++ secret)
      with (js "vk_test_" ++ secret).
    now rewrite startsWith_app. }
  repeat split.
  - rewrite Hmask. destruct (startsWith s (js "vk_test_")); reflexivity.
  - lia.
  - rewrite isValid_is_keyPattern, Hmask.
    match goal with
    | |- keyPattern_test ?m = false =>
        destruct (keyPattern_test m) eqn:E; [exfalso | reflexivity]
    end.
    apply keyPattern_test_wellShaped in E.
    destruct E as (env & secret & Henv & Heq & _ & Hal).
    destruct (List.length s - 12)%nat as [|n] eqn:En; [lia|].
    cbn [List.repeat] in Heq.
    assert (Hstar : exists rest, secret = 42%N :: rest).
    { destruct (startsWith s (js "vk_test_")); destruct Henv as [-> | ->];
        cbn in Heq; inversion Heq; eauto. }
    destruct Hstar as [rest ->].
    inversion Hal as [|? ? Hstar _]. vm_compute in Hstar. discriminate.
Qed.

Lemma getKeyInfo_masks_secret_witness :
  isValid
    (validateKeyFormat
       (maskedKey
          (getKeyInfo
             {| client_auth := Scenario.testAuth;
                httpClient :=
                  Scenario.httpClientWith Scenario.alwaysSucceed 3 |})))
  = false.
Proof.
  apply (proj2 (proj2 (proj2
    (@getKeyInfo_masks_secret
       (js "vk_test_abcdefghijklmnopqrstuvwxyz123456")
       {| client_auth := Scenario.testAuth;
          httpClient := Scenario.httpClientWith Scenario.alwaysSucceed 3 |}
       eq_refl)))).
Defined.

End KeyInfoTheorems.

(* ================================================================== *)
(** * Request executor: further properties *)
(* ================================================================== *)

Section ExecutorFacts.

Variable this : VantigeHttpClient.
Variable req : Request.

Lemma failedAttempts_cons (a n : nat) :
  Spec.failedAttempts req a (S n)
  = Sent req :: Slept (backoffDelay (Z.of_nat a))
    :: Spec.failedAttempts req (S a) n.
Proof. reflexivity. Qed.

(** Whatever the transport does, a loop with [m] spare attempts after
    attempt [a] sends the request, and sends it again only after a failed
    attempt and its delay, [m] times at most. *)
Lemma retryLoop_shape (m : nat) :
  forall (a : nat) (last : option VantigeSDKError) (w : World),
    (Z.of_nat (a + m) = retries (config this))%Z ->
    exists n,
      (n <= m)%nat
      /\ snd (retryLoop this (send this req) (S m) (Z.of_nat a) last w)
         = w ++ Spec.failedAttempts req a n ++ [Sent req].
Proof.
  induction m as [|m IH]; intros a last w Hbudget.
  - exists 0%nat. split; [lia|]. cbn [retryLoop]. unfold send.
    destruct (client this (sentCount w) req) as [v|raw]; [reflexivity|].
    destruct (includes nonRetryableErrors (code (handleError raw)));
      [reflexivity|].
    replace (Z.of_nat a) with (retries (config this)) by lia.
    rewrite Z.eqb_refl. reflexivity.
  - destruct (client this (sentCount w) req) as [v|raw] eqn:Hc.
    + exists 0%nat. split; [lia|].
      now rewrite retryLoop_success with (v := v) by exact Hc.
    + destruct (includes nonRetryableErrors (code (handleError raw))) eqn:Hi.
      * exists 0%nat. split; [lia|].
        now rewrite retryLoop_fatal with (raw := raw) by assumption.
      * rewrite retryLoop_step with (raw := raw) by (assumption || lia).
        replace (Z.of_nat a + 1)%Z with (Z.of_nat (S a)) by lia.
        destruct (IH (S a) (Some (handleError raw))
                    (w ++ [Sent req; Slept (backoffDelay (Z.of_nat a))]))
          as (n & Hn & Htrace); [lia|].
        exists (S n). split; [lia|].
        rewrite Htrace, failedAttempts_cons, <- !app_assoc. reflexivity.
Qed.

(** The whole run of a loop with [m] spare attempts after attempt [a]:
    [n] requests fail retryably, each followed by its delay, and the
    answer to the next request settles the call, a body as it is and a
    failure as [handleError] classifies it. *)
Lemma retryLoop_run (m : nat) :
  forall (a : nat) (last : option VantigeSDKError) (w : World),
    (Z.of_nat (a + m) = retries (config this))%Z ->
    exists n,
      (n <= m)%nat
      /\ (forall i, (i < n)%nat ->
                    Spec.failsRetryably this req (sentCount w + i))
      /\ retryLoop this (send this req) (S m) (Z.of_nat a) last w
         = (match client this (sentCount w + n) req with
            | Return body => Return body
            | Throw raw => Throw (SDKError (handleError raw))
            end,
            w ++ Spec.failedAttempts req a n ++ [Sent req]).
Proof.
  induction m as [|m IH]; intros a last w Hbudget.
  - exists 0%nat. split; [lia|]. split; [intros i Hi; lia|].
    rewrite Nat.add_0_r. cbn [retryLoop]. unfold send.
    destruct (client this (sentCount w) req) as [v|raw]; [reflexivity|].
    destruct (includes nonRetryableErrors (code (handleError raw)));
      [reflexivity|].
    replace (Z.of_nat a) with (retries (config this)) by lia.
    rewrite Z.eqb_refl. reflexivity.
  - destruct (client this (sentCount w) req) as [v|raw] eqn:Hc.
    + exists 0%nat. split; [lia|]. split; [intros i Hi; lia|].
      rewrite Nat.add_0_r, Hc.
      now rewrite retryLoop_success with (v := v) by exact Hc.
    + destruct (includes nonRetryableErrors (code (handleError raw))) eqn:Hi.
      * exists 0%nat. split; [lia|]. split; [intros i Hlt; lia|].
        rewrite Nat.add_0_r, Hc.
        now rewrite retryLoop_fatal with (raw := raw) by assumption.
      * rewrite retryLoop_step with (raw := raw) by (assumption || lia).
        replace (Z.of_nat a + 1)%Z with (Z.of_nat (S a)) by lia.
        destruct (IH (S a) (Some (handleError raw))
                    (w ++ [Sent req; Slept (backoffDelay (Z.of_nat a))]))
          as (n & Hn & Hfail & Hrun); [lia|].
        assert (Hcount :
                  sentCount (w ++ [Sent req; Slept (backoffDelay (Z.of_nat a))])
                  = S (sentCount w)).
        { rewrite sentCount_app. cbn. lia. }
        rewrite Hcount in Hrun, Hfail.
        exists (S n). split; [lia|]. split.
        -- intros [|i] Hlt.
           ++ rewrite Nat.add_0_r. exists raw. split; assumption.
           ++ replace (sentCount w + S i)%nat with (S (sentCount w) + i)%nat
                by lia.
              apply Hfail. lia.
        -- rewrite Hrun.
           replace (S (sentCount w) + n)%nat with (sentCount w + S n)%nat
             by lia.
           rewrite failedAttempts_cons, <- !app_assoc. reflexivity.
Qed.

(** The run of the executor on one request, for a budget that is not
    negative. *)
Lemma executeWithRetry_run (w : World) :
  (0 <= retries (config this))%Z ->
  exists n,
    (Z.of_nat n <= retries (config this))%Z
    /\ (forall i, (i < n)%nat ->
                  Spec.failsRetryably this req (sentCount w + i))
    /\ executeWithRetry this (send this req) w
       = (match client this (sentCount w + n) req with
          | Return body => Return body
          | Throw raw => Throw (SDKError (handleError raw))
          end,
          w ++ Spec.failedAttempts req 0 n ++ [Sent req]).
Proof.
  intros H. unfold executeWithRetry.
  replace (Z.to_nat (retries (config this) + 1))
    with (S (Z.to_nat (retries (config this)))) by lia.
  destruct (retryLoop_run (Z.to_nat (retries (config this))) 0 None w)
    as (n & Hn & Hfail & Hrun); [simpl; lia|].
  exists n. split; [lia|]. split; [exact Hfail | exact Hrun].
Qed.

(** With an attempt to make, the loop settles to a value or to an error
    of the SDK. *)
Lemma retryLoop_settles (m : nat) :
  forall (a : Z) (last : option VantigeSDKError) (w : World),
    Trace.settledBySdk (fst (retryLoop this (send this req) (S m) a last w)).
Proof.
  induction m as [|m IH]; intros a last w; cbn [retryLoop]; unfold send at 1.
  - destruct (client this (sentCount w) req) as [v|raw]; [exact I|].
    destruct (includes nonRetryableErrors (code (handleError raw)));
      [exact I|].
    destruct (a =? retries (config this))%Z; exact I.
  - destruct (client this (sentCount w) req) as [v|raw]; [exact I|].
    destruct (includes nonRetryableErrors (code (handleError raw)));
      [exact I|].
    destruct (a =? retries (config this))%Z; [exact I|].
    unfold andThen, sleep. apply (IH _ None).
Qed.

Lemma backoffDelay_bounds (a : nat) :
  (1000 <= backoffDelay (Z.of_nat a) <= 10000)%Z.
Proof.
  unfold backoffDelay.
  assert (0 < 2 ^ Z.of_nat a)%Z by (apply Z.pow_pos_nonneg; lia).
  lia.
Qed.

Lemma delays_app (w1 w2 : World) :
  Trace.delays (w1 ++ w2) = Trace.delays w1 ++ Trace.delays w2.
Proof. apply flat_map_app. Qed.

Lemma delays_failedAttempts (a n : nat) :
  Trace.delays (Spec.failedAttempts req a n)
  = List.map (fun i => backoffDelay (Z.of_nat i)) (List.seq a n).
Proof.
  revert a. induction n as [|n IH]; intros a; [reflexivity|].
  rewrite failedAttempts_cons. cbn [Trace.delays List.flat_map app].
  change (List.flat_map _ (Spec.failedAttempts req (S a) n))
    with (Trace.delays (Spec.failedAttempts req (S a) n)).
  rewrite IH. reflexivity.
Qed.

Lemma sent_failedAttempts (a n : nat) :
  Trace.sent (Spec.failedAttempts req a n) = List.repeat req n.
Proof.
  revert a. induction n as [|n IH]; intros a; [reflexivity|].
  rewrite failedAttempts_cons. cbn [Trace.sent List.flat_map app].
  change (List.flat_map _ (Spec.failedAttempts req (S a) n))
    with (Trace.sent (Spec.failedAttempts req (S a) n)).
  rewrite IH. reflexivity.
Qed.

Lemma totalSlept_failedAttempts (a n : nat) :
  (Trace.totalSlept (Spec.failedAttempts req a n) <= 10000 * Z.of_nat n)%Z.
Proof.
  unfold Trace.totalSlept. rewrite delays_failedAttempts. revert a.
  induction n as [|n IH]; intros a; [simpl; lia|].
  cbn [List.seq List.map List.fold_right].
  pose proof (backoffDelay_bounds a). specialize (IH (S a)). lia.
Qed.

(** The run from a fresh trace, for a budget that is not negative. *)
Lemma executeWithRetry_shape :
  (0 <= retries (config this))%Z ->
  exists n,
    (Z.of_nat n <= retries (config this))%Z
    /\ snd (executeWithRetry this (send this req) fresh)
       = Spec.failedAttempts req 0 n ++ [Sent req].
Proof.
  intros H. unfold executeWithRetry, fresh.
  replace (Z.to_nat (retries (config this) + 1))
    with (S (Z.to_nat (retries (config this)))) by lia.
  destruct (retryLoop_shape (Z.to_nat (retries (config this))) 0 None [])
    as (n & Hn & Htrace); [simpl; lia|].
  exists n. split; [lia | exact Htrace].
Qed.

End ExecutorFacts.

Section ExecutorTheorems.

(** X6.  Whatever the transport answers, the trace of a logical call with
    a budget [retries >= 0] is, for some [n <= retries], the request
    followed by the backoff delay of attempt [i], for [i = 0, ..., n - 1]
    in this order, and then the request once more:
    [Sent; Slept d0; Sent; Slept d1; ...; Sent].  So the call makes [n + 1]
    transport invocations, between 1 and [retries + 1], every one with
    the same request, and waits exactly once between two consecutive
    invocations and nowhere else. *)
Theorem executeWithRetry_bounded_attempts
    (this : VantigeHttpClient) (req : Request) :
  (0 <= retries (config this))%Z ->
  exists n : nat,
    (Z.of_nat n <= retries (config this))%Z
    /\ snd (executeWithRetry this (send this req) fresh)
       = List.flat_map
           (fun i => [Sent req; Slept (backoffDelay (Z.of_nat i))])
           (List.seq 0 n)
         ++ [Sent req]
    /\ sentCount (snd (executeWithRetry this (send this req) fresh)) = S n
    /\ Trace.sent (snd (executeWithRetry this (send this req) fresh))
       = List.repeat req (S n)
    /\ Trace.delays (snd (executeWithRetry this (send this req) fresh))
       = List.map (fun i => backoffDelay (Z.of_nat i)) (List.seq 0 n).
Proof.
  intros H. destruct (executeWithRetry_shape this req H) as (n & Hn & Htrace).
  exists n. rewrite Htrace.
  split; [exact Hn|]. split; [reflexivity|]. split; [|split].
  - rewrite sentCount_app, sentCount_failedAttempts. cbn. lia.
  - unfold Trace.sent. rewrite flat_map_app.
    change (List.flat_map _ (Spec.failedAttempts req 0 n))
      with (Trace.sent (Spec.failedAttempts req 0 n)).
    rewrite sent_failedAttempts. cbn [List.flat_map app].
    rewrite <- repeat_cons. reflexivity.
  - rewrite delays_app, delays_failedAttempts. cbn. now rewrite app_nil_r.
Qed.

Lemma executeWithRetry_bounded_attempts_witness :
  exists n : nat,
    (Z.of_nat n <= 2)%Z
    /\ snd (executeWithRetry
              (Scenario.httpClientWith
                 (Scenario.failThenSucceed 1 (Scenario.httpError 429)) 2)
              (send (Scenario.httpClientWith
                       (Scenario.failThenSucceed 1
                          (Scenario.httpError 429)) 2)
                    (GET (js "/test")))
              fresh)
       = List.flat_map
           (fun i => [Sent (GET (js "/test"));
                      Slept (backoffDelay (Z.of_nat i))])
           (List.seq 0 n)
         ++ [Sent (GET (js "/test"))].
Proof.
  destruct (@executeWithRetry_bounded_attempts
              (Scenario.httpClientWith
                 (Scenario.failThenSucceed 1 (Scenario.httpError 429)) 2)
              (GET (js "/test")))
    as (n & Hn & Htrace & _).
  - vm_compute. discriminate.
  - exists n. split; [exact Hn | exact Htrace].
Defined.

(** X7.  Every delay the executor awaits lies between 1000 and 10000
    milliseconds, and with a budget [retries >= 0] a logical call waits
    at most [10000 * retries] milliseconds in all. *)
Theorem executeWithRetry_waits_within_cap
    (this : VantigeHttpClient) (req : Request) :
  (forall d,
      In d (Trace.delays (snd (executeWithRetry this (send this req) fresh))) ->
      (1000 <= d <= 10000)%Z)
  /\ ((0 <= retries (config this))%Z ->
      (Trace.totalSlept (snd (executeWithRetry this (send this req) fresh))
       <= 10000 * retries (config this))%Z).
Proof.
  destruct (Z.lt_ge_cases (retries (config this)) 0) as [Hneg|Hpos].
  - split; [|lia]. unfold executeWithRetry.
    replace (Z.to_nat (retries (config this) + 1)) with 0%nat by lia.
    intros d [].
  - destruct (executeWithRetry_shape this req Hpos) as (n & Hn & ->).
    split.
    + intros d. rewrite delays_app, delays_failedAttempts. cbn.
      rewrite app_nil_r, in_map_iff. intros (i & <- & _).
      apply backoffDelay_bounds.
    + intros _. unfold Trace.totalSlept. rewrite delays_app.
      change (Trace.delays [Sent req]) with (@nil Z). rewrite app_nil_r.
      pose proof (totalSlept_failedAttempts req 0 n) as Ht.
      unfold Trace.totalSlept in Ht. nia.
Qed.

Lemma executeWithRetry_waits_within_cap_witness :
  (Trace.totalSlept
     (snd (executeWithRetry
             (Scenario.httpClientWith
                (Scenario.alwaysFail Scenario.networkError) 5)
             (send (Scenario.httpClientWith
                      (Scenario.alwaysFail Scenario.networkError) 5)
                   (GET (js "/test")))
             fresh))
   <= 10000 * 5)%Z
  /\ (1000 <= 8000 <= 10000)%Z.
Proof.
  split.
  - apply (proj2 (@executeWithRetry_waits_within_cap
                    (Scenario.httpClientWith
                       (Scenario.alwaysFail Scenario.networkError) 5)
                    (GET (js "/test")))).
    vm_compute. discriminate.
  - apply (proj1 (@executeWithRetry_waits_within_cap
                    (Scenario.httpClientWith
                       (Scenario.alwaysFail Scenario.networkError) 5)
                    (GET (js "/test")))).
    vm_compute. do 3 right. left. reflexivity.
Defined.

(** X8.  With a budget [retries >= 0], [get] and [post] settle with the
    answer to the last request they send: the response body as it is when
    that request succeeds, and the [VantigeSDKError] that [handleError]
    makes of its failure otherwise, so no raw axios error and no other
    value ever reaches the caller.  The requests before the last one all
    failed with an error that may be retried, and each was followed by its
    backoff delay. *)
Theorem get_post_reject_with_sdk_errors (this : VantigeHttpClient) :
  (0 <= retries (config this))%Z ->
  forall (url : jsstring) (data : value) (w : World),
    (exists n : nat,
        (Z.of_nat n <= retries (config this))%Z
        /\ (forall i, (i < n)%nat ->
                      Spec.failsRetryably this (GET url) (sentCount w + i))
        /\ get this url w
           = (match client this (sentCount w + n) (GET url) with
              | Return body => Return body
              | Throw raw => Throw (SDKError (handleError raw))
              end,
              w ++ List.flat_map
                     (fun i => [Sent (GET url);
                                Slept (backoffDelay (Z.of_nat i))])
                     (List.seq 0 n)
                ++ [Sent (GET url)]))
    /\ (exists n : nat,
          (Z.of_nat n <= retries (config this))%Z
          /\ (forall i, (i < n)%nat ->
                        Spec.failsRetryably this (POST url data)
                          (sentCount w + i))
          /\ post this url data w
             = (match client this (sentCount w + n) (POST url data) with
                | Return body => Return body
                | Throw raw => Throw (SDKError (handleError raw))
                end,
                w ++ List.flat_map
                       (fun i => [Sent (POST url data);
                                  Slept (backoffDelay (Z.of_nat i))])
                       (List.seq 0 n)
                  ++ [Sent (POST url data)]))
    /\ Trace.settledBySdk (fst (get this url w))
    /\ Trace.settledBySdk (fst (post this url data w)).
Proof.
  intros H url data w.
  split; [|split; [|split]].
  - apply (executeWithRetry_run this (GET url) w H).
  - apply (executeWithRetry_run this (POST url data) w H).
  - unfold get, executeWithRetry.
    replace (Z.to_nat (retries (config this) + 1))
      with (S (Z.to_nat (retries (config this)))) by lia.
    apply retryLoop_settles.
  - unfold post, executeWithRetry.
    replace (Z.to_nat (retries (config this) + 1))
      with (S (Z.to_nat (retries (config this)))) by lia.
    apply retryLoop_settles.
Qed.

Lemma get_post_reject_with_sdk_errors_witness :
  exists n : nat,
    (Z.of_nat n <= 1)%Z
    /\ (forall i, (i < n)%nat ->
                  Spec.failsRetryably
                    (Scenario.httpClientWith
                       (Scenario.alwaysFail
                          (Other (Some (js "socket hang up")))) 1)
                    (GET (js "/test")) (sentCount fresh + i))
    /\ get (Scenario.httpClientWith
              (Scenario.alwaysFail (Other (Some (js "socket hang up")))) 1)
           (js "/test") fresh
       = (match Scenario.alwaysFail (Other (Some (js "socket hang up")))
                  (sentCount fresh + n) (GET (js "/test")) with
          | Return body => Return body
          | Throw raw => Throw (SDKError (handleError raw))
          end,
          fresh ++ List.flat_map
                     (fun i => [Sent (GET (js "/test"));
                                Slept (backoffDelay (Z.of_nat i))])
                     (List.seq 0 n)
            ++ [Sent (GET (js "/test"))]).
Proof.
  apply (proj1 (@get_post_reject_with_sdk_errors
                  (Scenario.httpClientWith
                     (Scenario.alwaysFail
                        (Other (Some (js "socket hang up")))) 1)
                  ltac:(vm_compute; discriminate)
                  (js "/test") JUndefined fresh)).
Defined.

(** X9.  With a negative budget the loop body never runs: whatever the
    operation, it is not invoked and the call rejects with [undefined],
    the value [lastError] still has, not with a [VantigeSDKError]. *)
Theorem executeWithRetry_negative_budget
    (T : Type) (this : VantigeHttpClient) (operation : Async T) (w : World) :
  (retries (config this) < 0)%Z ->
  executeWithRetry this operation w = (Throw (Other None), w).
Proof.
  intros H. unfold executeWithRetry.
  replace (Z.to_nat (retries (config this) + 1)) with 0%nat by lia.
  reflexivity.
Qed.

Lemma executeWithRetry_negative_budget_witness :
  executeWithRetry
    (Scenario.httpClientWith Scenario.alwaysSucceed (-1))
    (send (Scenario.httpClientWith Scenario.alwaysSucceed (-1))
          (GET (js "/test")))
    fresh
  = (Throw (Other None), fresh).
Proof.
  apply executeWithRetry_negative_budget. vm_compute. reflexivity.
Defined.

(** X10.  Which failures the executor retries, read through
    [handleError]: a failure with a response is final exactly when its
    status is 401, 403, 404 or 422, so 429, 500, 503 and every unlisted
    status are retried; a failure without a response (timeout, network) is
    always retried, and so is a failure that is not an axios error. *)
Theorem retry_eligibility_by_status :
  (forall (c : option jsstring) (m : jsstring) (r : AxiosResponse),
      includes nonRetryableErrors
        (code (handleError
                 (Axios {| axios_code := c; axios_message := m;
                           response := Some r |})))
      = ((status r =? 401) || (status r =? 403)
         || (status r =? 404) || (status r =? 422))%Z)
  /\ (forall (c : option jsstring) (m : jsstring),
        includes nonRetryableErrors
          (code (handleError
                   (Axios {| axios_code := c; axios_message := m;
                             response := None |})))
        = false)
  /\ (forall (m : option jsstring),
        includes nonRetryableErrors (code (handleError (Other m))) = false).
Proof.
  repeat split.
  - intros c m r. unfold handleError. cbn [response].
    unfold createVantigeError, newVantigeSDKError. cbn [code].
    rewrite status_switch_is_fixedTable.
    unfold Spec.kindOfStatus, Spec.fixedTable. cbn [List.find fst snd].
    rewrite !(Z.eqb_sym _ (status r)).
    destruct (status r =? 401)%Z; [reflexivity|].
    destruct (status r =? 403)%Z; [reflexivity|].
    destruct (status r =? 404)%Z; [reflexivity|].
    destruct (status r =? 422)%Z; [reflexivity|].
    destruct (status r =? 429)%Z; [reflexivity|].
    destruct (status r =? 500)%Z; [reflexivity|].
    destruct (status r =? 503)%Z; reflexivity.
  - intros c m. unfold handleError. cbn [response axios_code].
    destruct c as [c|]; [destruct (str_eqb c (js "ECONNABORTED"))|];
      reflexivity.
Qed.

End ExecutorTheorems.

(* ================================================================== *)
(** * Domain operations: further properties *)
(* ================================================================== *)

Section OperationFacts.

Lemma isEmpty_false (s : jsstring) : s <> [] -> isEmpty s = false.
Proof. destruct s; [congruence | reflexivity]. Qed.

Lemma trim_nonempty_source (s : jsstring) : trim s <> [] -> s <> [].
Proof. intros H ->. apply H. reflexivity. Qed.

(** Input that passes the four checks goes to [post]. *)
Lemma query_passes_checks (this : VantigeClient) (corpusId : jsstring)
    (params : QueryParams) :
  corpusId <> [] ->
  trim (queryText params) <> [] ->
  (jslength (queryText params) <= 1000)%Z ->
  (forall k, topK params = Some k -> (1 <= k <= 100)%Z) ->
  query this corpusId params
  = (await response <-
       post (httpClient this)
            (js "/api/v1/knowledge-base/" ++ corpusId ++ js "/query")
            (queryParamsValue params) ;
     checkSuccess (js "Query failed") response).
Proof.
  intros Hid Htrim Hlen Hk. unfold query.
  rewrite (isEmpty_false Hid).
  rewrite (isEmpty_false (trim_nonempty_source Htrim)).
  assert (Hz : (jslength (trim (queryText params)) =? 0)%Z = false).
  { apply Z.eqb_neq. unfold jslength.
    destruct (trim (queryText params)); [congruence | simpl; lia]. }
  rewrite Hz. cbn [orb].
  rewrite Z.gtb_ltb, (proj2 (Z.ltb_ge _ _) Hlen).
  destruct (topK params) as [k|]; [|reflexivity].
  specialize (Hk k eq_refl).
  rewrite (proj2 (Z.ltb_ge _ _)) by lia.
  rewrite Z.gtb_ltb, (proj2 (Z.ltb_ge _ _)) by lia.
  reflexivity.
Qed.

Lemma andThen_checkSuccess_trace (m : Async value) (failure : jsstring)
    (w : World) :
  snd ((await response <- m ; checkSuccess failure response) w) = snd (m w).
Proof.
  unfold andThen. destruct (m w) as [[response|e] w'];
    [apply checkSuccess_keeps_trace | reflexivity].
Qed.

(** A first answer with a body settles the executor at once. *)
Lemma executeWithRetry_first_answer (this : VantigeHttpClient)
    (req : Request) (body : value) :
  (0 <= retries (config this))%Z ->
  client this 0 req = Return body ->
  executeWithRetry this (send this req) fresh = (Return body, [Sent req]).
Proof.
  intros H Hc. unfold executeWithRetry, fresh.
  replace (Z.to_nat (retries (config this) + 1))
    with (S (Z.to_nat (retries (config this)))) by lia.
  now rewrite retryLoop_success with (v := body).
Qed.

End OperationFacts.

Section OperationTheorems.

(** X11.  Input that passes the four checks of [query] is sent: with a
    budget [retries >= 0] every request of the call is the POST to
    [/api/v1/knowledge-base/<corpusId>/query], the identifier spliced in
    as given, with the params as body; and the body carries the query text
    as given, not trimmed. *)
Theorem query_sends_valid_input (this : VantigeClient)
    (corpusId : jsstring) (params : QueryParams) :
  corpusId <> [] ->
  trim (queryText params) <> [] ->
  (jslength (queryText params) <= 1000)%Z ->
  (forall k, topK params = Some k -> (1 <= k <= 100)%Z) ->
  (0 <= retries (config (httpClient this)))%Z ->
  exists n,
    (Z.of_nat n <= retries (config (httpClient this)))%Z
    /\ Trace.sent (snd (query this corpusId params fresh))
       = List.repeat
           (POST (js "/api/v1/knowledge-base/" ++ corpusId ++ js "/query")
                 (queryParamsValue params))
           (S n)
    /\ prop (queryParamsValue params) (js "query")
       = JStr (queryText params).
Proof.
  intros Hid Htrim Hlen Hk Hr.
  rewrite (@query_passes_checks this _ _ Hid Htrim Hlen Hk).
  rewrite andThen_checkSuccess_trace. unfold post.
  destruct (@executeWithRetry_shape (httpClient this)
              (POST (js "/api/v1/knowledge-base/" ++ corpusId ++ js "/query")
                    (queryParamsValue params)) Hr) as (n & Hn & ->).
  exists n. repeat split; [exact Hn|].
  unfold Trace.sent. rewrite flat_map_app.
  match goal with
  | |- List.flat_map ?f (Spec.failedAttempts ?r 0 n) ++ _ = _ =>
      change (List.flat_map f (Spec.failedAttempts r 0 n))
        with (Trace.sent (Spec.failedAttempts r 0 n))
  end.
  rewrite sent_failedAttempts. cbn [List.flat_map app].
  rewrite <- repeat_cons. reflexivity.
Qed.

Lemma query_sends_valid_input_witness :
  exists n,
    (Z.of_nat n <= 3)%Z
    /\ Trace.sent
         (snd (query
                 {| client_auth := Scenario.testAuth;
                    httpClient :=
                      Scenario.httpClientWith Scenario.alwaysSucceed 3 |}
                 (js "2makgyrXV6")
                 {| queryText := js "  how do I get started?  ";
                    topK := Some 5%Z; includeMetadata := None;
                    useGeneration := None; fieldMapping := None |}
                 fresh))
       = List.repeat
           (POST (js "/api/v1/knowledge-base/" ++ js "2makgyrXV6"
                  ++ js "/query")
                 (queryParamsValue
                    {| queryText := js "  how do I get started?  ";
                       topK := Some 5%Z; includeMetadata := None;
                       useGeneration := None; fieldMapping := None |}))
           (S n)
    /\ prop (queryParamsValue
               {| queryText := js "  how do I get started?  ";
                  topK := Some 5%Z; includeMetadata := None;
                  useGeneration := None; fieldMapping := None |})
            (js "query")
       = JStr (js "  how do I get started?  ").
Proof.
  apply (@query_sends_valid_input
           {| client_auth := Scenario.testAuth;
              httpClient := Scenario.httpClientWith Scenario.alwaysSucceed 3 |}
           (js "2makgyrXV6")
           {| queryText := js "  how do I get started?  ";
              topK := Some 5%Z; includeMetadata := None;
              useGeneration := None; fieldMapping := None |}).
  - discriminate.
  - vm_compute. discriminate.
  - vm_compute. discriminate.
  - intros k [= <-]. lia.
  - vm_compute. discriminate.
Defined.

(** X12.  Which check of [query] speaks: the first that fails, in the
    order identifier, blank text, length, [topK].  The length is that of
    the text as given, so a text padded with whitespace beyond 1000 units
    is refused whatever its trimmed length.  Each of these errors is a
    [VALIDATION_ERROR] with status code 500. *)
Theorem query_validation_messages (this : VantigeClient)
    (corpusId : jsstring) (params : QueryParams) (w : World) :
  (corpusId = [] ->
   query this corpusId params w
   = (Throw (validationError (js "Corpus ID is required")), w))
  /\ (corpusId <> [] -> trim (queryText params) = [] ->
      query this corpusId params w
      = (Throw (validationError (js "Query is required")), w))
  /\ (corpusId <> [] -> trim (queryText params) <> [] ->
      (1000 < jslength (queryText params))%Z ->
      query this corpusId params w
      = (Throw (validationError (js "Query must be 1000 characters or less")),
         w))
  /\ (corpusId <> [] -> trim (queryText params) <> [] ->
      (jslength (queryText params) <= 1000)%Z ->
      (exists k, topK params = Some k /\ (k < 1 \/ 100 < k)%Z) ->
      query this corpusId params w
      = (Throw (validationError (js "topK must be between 1 and 100")), w))
  /\ (forall msg,
        exists e, validationError msg = SDKError e
                  /\ code e = VALIDATION_ERROR /\ statusCode e = 500%Z
                  /\ (msg <> [] -> message e = msg)).
Proof.
  assert (Hz : trim (queryText params) <> [] ->
               (jslength (trim (queryText params)) =? 0)%Z = false).
  { intros H. apply Z.eqb_neq. unfold jslength.
    destruct (trim (queryText params)); [congruence | simpl; lia]. }
  repeat split.
  - intros ->. reflexivity.
  - intros Hid Hblank. unfold query. rewrite (isEmpty_false Hid), Hblank.
    cbn. now rewrite orb_true_r.
  - intros Hid Htrim Hlen. unfold query.
    rewrite (isEmpty_false Hid),
      (isEmpty_false (trim_nonempty_source Htrim)), (Hz Htrim).
    cbn [orb]. rewrite Z.gtb_ltb, (proj2 (Z.ltb_lt _ _) Hlen). reflexivity.
  - intros Hid Htrim Hlen (k & Hk & Hout). unfold query.
    rewrite (isEmpty_false Hid),
      (isEmpty_false (trim_nonempty_source Htrim)), (Hz Htrim).
    cbn [orb]. rewrite Z.gtb_ltb, (proj2 (Z.ltb_ge _ _) Hlen), Hk.
    assert (Hb : ((k <? 1) || (k >? 100))%Z = true).
    { rewrite Z.gtb_ltb. apply orb_true_iff.
      destruct Hout; [left | right]; apply Z.ltb_lt; assumption. }
    now rewrite Hb.
  - intros msg. eexists. split; [reflexivity|].
    repeat split. intros Hne. destruct msg; [congruence | reflexivity].
Qed.

Lemma query_validation_messages_witness :
  query {| client_auth := Scenario.testAuth;
           httpClient := Scenario.httpClientWith Scenario.alwaysSucceed 3 |}
        (js "2makgyrXV6")
        {| queryText := js "hello" ++ List.repeat 32%N 996; topK := None;
           includeMetadata := None; useGeneration := None;
           fieldMapping := None |}
        fresh
  = (Throw (validationError (js "Query must be 1000 characters or less")),
     fresh).
Proof.
  apply (proj1 (proj2 (proj2
    (query_validation_messages
       {| client_auth := Scenario.testAuth;
          httpClient := Scenario.httpClientWith Scenario.alwaysSucceed 3 |}
       (js "2makgyrXV6")
       {| queryText := js "hello" ++ List.repeat 32%N 996; topK := None;
          includeMetadata := None; useGeneration := None;
          fieldMapping := None |}
       fresh)))).
  - discriminate.
  - vm_compute. discriminate.
  - vm_compute. reflexivity.
Defined.

End OperationTheorems.

Section SuccessFlagTheorems.

(** The success check applied to the first answer of the executor. *)
Lemma first_answer_checked (this : VantigeHttpClient)
    (req : Request) (failure : jsstring) (body : value) :
  (0 <= retries (config this))%Z ->
  client this 0 req = Return body ->
  (truthy (prop body (js "success")) = true ->
   (await response <- executeWithRetry this (send this req) ;
    checkSuccess failure response) fresh
   = (Return body, [Sent req]))
  /\ (body <> JUndefined -> body <> JNull ->
      truthy (prop body (js "success")) = false ->
      (await response <- executeWithRetry this (send this req) ;
       checkSuccess failure response) fresh
      = (Throw (SDKError (createVantigeError SERVICE_UNAVAILABLE (Some failure)
                            None JUndefined None)),
         [Sent req]))
  /\ (body = JUndefined \/ body = JNull ->
      exists m,
        (await response <- executeWithRetry this (send this req) ;
         checkSuccess failure response) fresh
        = (Throw (Other m), [Sent req]))
  /\ (forall corpusId params,
        req = POST (js "/api/v1/knowledge-base/" ++ corpusId ++ js "/query")
                   (queryParamsValue params) ->
        corpusId <> [] ->
        trim (queryText params) <> [] ->
        (jslength (queryText params) <= 1000)%Z ->
        (forall k, topK params = Some k -> (1 <= k <= 100)%Z) ->
        forall auth,
          query {| client_auth := auth; httpClient := this |}
                corpusId params fresh
          = (await response <- executeWithRetry this (send this req) ;
             checkSuccess (js "Query failed") response) fresh)
  /\ (forall params,
        req = GET (listKnowledgeBasesUrl params) ->
        forall auth,
          listKnowledgeBases {| client_auth := auth; httpClient := this |}
                             params fresh
          = (await response <- executeWithRetry this (send this req) ;
             checkSuccess (js "Failed to list knowledge bases") response)
              fresh).
Proof.
  intros Hr Hc.
  pose proof (executeWithRetry_first_answer this req Hr Hc) as Hrun.
  assert (Hgen :
    (await response <- executeWithRetry this (send this req) ;
     checkSuccess failure response) fresh
    = checkSuccess failure body [Sent req])
    by (unfold andThen; now rewrite Hrun).
  split; [|split; [|split; [|split]]].
  - intros Hs. rewrite Hgen. unfold checkSuccess, notSuccess.
    destruct body; try discriminate Hs; rewrite ?Hs; reflexivity.
  - intros Hu Hn Hs. rewrite Hgen. unfold checkSuccess, notSuccess.
    destruct body; try congruence; rewrite ?Hs; reflexivity.
  - rewrite Hgen. unfold checkSuccess, notSuccess.
    intros [-> | ->]; eexists; reflexivity.
  - intros corpusId params -> Hid Htrim Hlen Hk auth.
    rewrite query_passes_checks by assumption. reflexivity.
  - intros params -> auth. reflexivity.
Qed.

(** X13.  What [query] makes of a 2xx answer, for input that passes its
    checks, a budget [retries >= 0] and a first request answered with a
    body: a body whose [success] is truthy is returned as it is; a body
    whose [success] is falsy or missing becomes a [SERVICE_UNAVAILABLE]
    error "Query failed" with status 500; either way exactly one request
    was made, so the failed flag is not retried.  A [null] or [undefined]
    body makes the property read itself fail, and that error is not a
    [VantigeSDKError]. *)
Theorem query_checks_success_flag (this : VantigeClient)
    (corpusId : jsstring) (params : QueryParams) (body : value) :
  corpusId <> [] ->
  trim (queryText params) <> [] ->
  (jslength (queryText params) <= 1000)%Z ->
  (forall k, topK params = Some k -> (1 <= k <= 100)%Z) ->
  (0 <= retries (config (httpClient this)))%Z ->
  client (httpClient this) 0
    (POST (js "/api/v1/knowledge-base/" ++ corpusId ++ js "/query")
          (queryParamsValue params))
  = Return body ->
  (truthy (prop body (js "success")) = true ->
   query this corpusId params fresh
   = (Return body,
      [Sent (POST (js "/api/v1/knowledge-base/" ++ corpusId ++ js "/query")
                  (queryParamsValue params))]))
  /\ (body <> JUndefined -> body <> JNull ->
      truthy (prop body (js "success")) = false ->
      exists e,
        query this corpusId params fresh
        = (Throw (SDKError e),
           [Sent (POST (js "/api/v1/knowledge-base/" ++ corpusId
                        ++ js "/query")
                       (queryParamsValue params))])
        /\ code e = SERVICE_UNAVAILABLE
        /\ message e = js "Query failed"
        /\ statusCode e = 500%Z)
  /\ (body = JUndefined \/ body = JNull ->
      exists m,
        query this corpusId params fresh
        = (Throw (Other m),
           [Sent (POST (js "/api/v1/knowledge-base/" ++ corpusId
                        ++ js "/query")
                       (queryParamsValue params))])).
Proof.
  intros Hid Htrim Hlen Hk Hr Hc.
  destruct (@first_answer_checked (httpClient this) _ (js "Query failed")
              body Hr Hc) as (H1 & H2 & H3 & _).
  rewrite query_passes_checks by assumption. unfold post.
  repeat split.
  - exact H1.
  - intros Hu Hn Hs. eexists. split; [exact (H2 Hu Hn Hs)|].
    repeat split.
  - exact H3.
Qed.

Lemma query_checks_success_flag_witness :
  exists e,
    query {| client_auth := Scenario.testAuth;
             httpClient :=
               Scenario.httpClientWith
                 (fun _ _ => Return (JObj [(js "success", JBool false)])) 3 |}
          (js "2makgyrXV6")
          {| queryText := js "hello"; topK := None;
             includeMetadata := None; useGeneration := None;
             fieldMapping := None |}
          fresh
    = (Throw (SDKError e),
       [Sent (POST (js "/api/v1/knowledge-base/" ++ js "2makgyrXV6"
                    ++ js "/query")
                   (queryParamsValue
                      {| queryText := js "hello"; topK := None;
                         includeMetadata := None; useGeneration := None;
                         fieldMapping := None |}))])
    /\ code e = SERVICE_UNAVAILABLE
    /\ message e = js "Query failed"
    /\ statusCode e = 500%Z.
Proof.
  apply (proj1 (proj2
    (@query_checks_success_flag
       {| client_auth := Scenario.testAuth;
          httpClient :=
            Scenario.httpClientWith
              (fun _ _ => Return (JObj [(js "success", JBool false)])) 3 |}
       (js "2makgyrXV6")
       {| queryText := js "hello"; topK := None;
          includeMetadata := None; useGeneration := None;
          fieldMapping := None |}
       (JObj [(js "success", JBool false)])
       ltac:(discriminate)
       ltac:(vm_compute; discriminate)
       ltac:(vm_compute; discriminate)
       ltac:(intros k H; discriminate H)
       ltac:(vm_compute; discriminate)
       eq_refl)));
    [discriminate | discriminate | reflexivity].
Defined.

(** X14.  What [listKnowledgeBases] makes of a 2xx answer, with a budget
    [retries >= 0] and a first request answered with a body: a body whose
    [success] is truthy is returned as it is; a body whose [success] is
    falsy or missing becomes a [SERVICE_UNAVAILABLE] error "Failed to list
    knowledge bases" with status 500; either way exactly one request, the
    GET of the listing path, was made.  A [null] or [undefined] body gives
    an error that is not a [VantigeSDKError]. *)
Theorem listKnowledgeBases_checks_success_flag (this : VantigeClient)
    (params : option ListKnowledgeBasesParams) (body : value) :
  (0 <= retries (config (httpClient this)))%Z ->
  client (httpClient this) 0 (GET (listKnowledgeBasesUrl params))
  = Return body ->
  (truthy (prop body (js "success")) = true ->
   listKnowledgeBases this params fresh
   = (Return body, [Sent (GET (listKnowledgeBasesUrl params))]))
  /\ (body <> JUndefined -> body <> JNull ->
      truthy (prop body (js "success")) = false ->
      exists e,
        listKnowledgeBases this params fresh
        = (Throw (SDKError e), [Sent (GET (listKnowledgeBasesUrl params))])
        /\ code e = SERVICE_UNAVAILABLE
        /\ message e = js "Failed to list knowledge bases"
        /\ statusCode e = 500%Z)
  /\ (body = JUndefined \/ body = JNull ->
      exists m,
        listKnowledgeBases this params fresh
        = (Throw (Other m), [Sent (GET (listKnowledgeBasesUrl params))])).
Proof.
  intros Hr Hc.
  destruct (@first_answer_checked (httpClient this) _
              (js "Failed to list knowledge bases") body Hr Hc)
    as (H1 & H2 & H3 & _).
  unfold listKnowledgeBases, get.
  repeat split.
  - exact H1.
  - intros Hu Hn Hs. eexists. split; [exact (H2 Hu Hn Hs)|].
    repeat split.
  - exact H3.
Qed.

Lemma listKnowledgeBases_checks_success_flag_witness :
  listKnowledgeBases
    {| client_auth := Scenario.testAuth;
       httpClient := Scenario.httpClientWith Scenario.alwaysSucceed 3 |}
    None fresh
  = (Return Scenario.successResponse,
     [Sent (GET (listKnowledgeBasesUrl None))]).
Proof.
  apply (proj1
    (@listKnowledgeBases_checks_success_flag
       {| client_auth := Scenario.testAuth;
          httpClient := Scenario.httpClientWith Scenario.alwaysSucceed 3 |}
       None Scenario.successResponse
       ltac:(vm_compute; discriminate) eq_refl)).
  reflexivity.
Defined.

End SuccessFlagTheorems.

Section ListUrlTheorems.



End ListUrlTheorems.

Section ConnectionTheorems.



End ConnectionTheorems.

Section ConstructorTheorems.

(** X17.  [new VantigeClient(config)] succeeds exactly when the schema
    accepts the configuration and the key matches the key pattern.  When
    the schema rejects, the error is a [CONFIGURATION_ERROR] with status
    500; this is the case of an empty key or a key with a wrong prefix, so
    the constructor never reports "API key is required" or the prefix
    message of [VantigeAuth].  When the schema accepts and the key does
    not match the pattern, the error is [INVALID_API_KEY] "API key format
    is invalid". *)
Theorem newVantigeClient_acceptance
    (zod : Zod) (transport : AxiosInstance) (config : VantigeConfig) :
  ((exists c, newVantigeClient zod transport config = Return c)
   <-> (schemaAccepts zod config = true
        /\ keyPattern_test (cfg_apiKey config) = true))
  /\ (schemaAccepts zod config = false ->
      exists e,
        newVantigeClient zod transport config = Throw (SDKError e)
        /\ code e = CONFIGURATION_ERROR /\ statusCode e = 500%Z
        /\ message e
           = js "Invalid configuration: " ++ errorMessage zod config)
  /\ (validateApiKey (cfg_apiKey config) = false ->
      schemaAccepts zod config = false)
  /\ (schemaAccepts zod config = true ->
      keyPattern_test (cfg_apiKey config) = false ->
      newVantigeClient zod transport config
      = Throw (SDKError (createVantigeError INVALID_API_KEY (Some msg_format)
                           None JUndefined None))).
Proof.
  assert (Hprefix : schemaAccepts zod config = true ->
                    validateApiKey (cfg_apiKey config) = true).
  { unfold schemaAccepts, validateApiKey. intros H.
    apply andb_true_iff in H as [H1 _].
    apply andb_true_iff in H1 as [H2 _].
    apply andb_true_iff in H2 as [H3 _]. exact H3. }
  unfold newVantigeClient, validateConfig.
  destruct (schemaAccepts zod config) eqn:Es.
  - specialize (Hprefix eq_refl).
    destruct (keyPattern_test (cfg_apiKey config)) eqn:Ep.
    + rewrite (validateAndSetApiKey_accepts _ Ep).
      split; [split | split; [| split]].
      * intros _. split; reflexivity.
      * intros _. eexists. reflexivity.
      * discriminate.
      * intros Hv. congruence.
      * discriminate.
    + assert (Hthrow : validateAndSetApiKey (cfg_apiKey config)
                       = Throw (SDKError (createVantigeError INVALID_API_KEY
                                            (Some msg_format) None JUndefined
                                            None))).
      { unfold validateAndSetApiKey.
        destruct (cfg_apiKey config) as [|c k] eqn:Ek;
          [discriminate Hprefix|].
        now rewrite Hprefix, Ep. }
      rewrite Hthrow.
      split; [split | split; [| split]].
      * intros [c Hc]. discriminate Hc.
      * intros [_ Hc]. discriminate Hc.
      * discriminate.
      * intros Hv. congruence.
      * reflexivity.
  - split; [split | split; [| split]].
    + intros [c Hc]. discriminate Hc.
    + intros [Hc _]. discriminate Hc.
    + intros _. eexists. repeat split.
    + reflexivity.
    + discriminate.
Qed.

Lemma newVantigeClient_acceptance_witness :
  exists e,
    newVantigeClient ScenarioZod.zod Scenario.alwaysSucceed
      {| cfg_apiKey := []; cfg_baseUrl := None; cfg_timeout := None;
         cfg_retries := None; cfg_debug := None |}
    = Throw (SDKError e)
    /\ code e = CONFIGURATION_ERROR /\ statusCode e = 500%Z
    /\ message e
       = js "Invalid configuration: "
         ++ errorMessage ScenarioZod.zod
              {| cfg_apiKey := []; cfg_baseUrl := None; cfg_timeout := None;
                 cfg_retries := None; cfg_debug := None |}.
Proof.
  apply (proj1 (proj2
    (newVantigeClient_acceptance ScenarioZod.zod Scenario.alwaysSucceed
       {| cfg_apiKey := []; cfg_baseUrl := None; cfg_timeout := None;
          cfg_retries := None; cfg_debug := None |}))).
  reflexivity.
Defined.

(** X18.  The client the constructor builds: it holds the key of the
    configuration and the given transport; the executor's [retries] is the
    configured value, except that an absent value and a configured 0 both
    become 3, so it always lies between 1 and 5 and the client always
    retries at least once; its [timeout] is the configured value or
    30000, always between 1000 and 60000. *)
Theorem newVantigeClient_configuration
    (zod : Zod) (transport : AxiosInstance)
    (config : VantigeConfig) (c : VantigeClient) :
  newVantigeClient zod transport config = Return c ->
  getApiKey (client_auth c) = cfg_apiKey config
  /\ client (httpClient c) = transport
  /\ auth (Http.config (httpClient c)) = client_auth c
  /\ retries (Http.config (httpClient c))
     = match cfg_retries config with
       | Some 0%Z | None => 3%Z
       | Some r => r
       end
  /\ (1 <= retries (Http.config (httpClient c)) <= 5)%Z
  /\ timeout (Http.config (httpClient c))
     = match cfg_timeout config with
       | Some t => t
       | None => 30000%Z
       end
  /\ (1000 <= timeout (Http.config (httpClient c)) <= 60000)%Z.
Proof.
  unfold newVantigeClient, validateConfig.
  destruct (schemaAccepts zod config) eqn:Es; [|discriminate].
  destruct (validateAndSetApiKey (cfg_apiKey config)) as [a|e] eqn:Ea;
    [|discriminate].
  intros [= <-]. cbn [client_auth httpClient client Http.config].
  destruct (validateAndSetApiKey_Return _ Ea) as [_ ->].
  unfold schemaAccepts in Es.
  apply andb_true_iff in Es as [Es Hr].
  apply andb_true_iff in Es as [_ Ht].
  unfold httpClientConfigOf, orNum, getApiKey.
  cbn [apiKey auth retries timeout].
  repeat split.
  - destruct (cfg_retries config) as [r|]; [|reflexivity].
    destruct (Z.eqb_spec r 0) as [->|Hne]; [reflexivity|].
    destruct r; [congruence | reflexivity | reflexivity].
  - destruct (cfg_retries config) as [r|]; [|lia].
    apply andb_true_iff in Hr as [H0 H5].
    apply Z.leb_le in H0. destruct (Z.eqb_spec r 0); lia.
  - destruct (cfg_retries config) as [r|]; [|lia].
    apply andb_true_iff in Hr as [H0 H5].
    apply Z.leb_le in H5. destruct (Z.eqb_spec r 0); lia.
  - destruct (cfg_timeout config) as [t|]; [|reflexivity].
    apply andb_true_iff in Ht as [H0 _]. apply Z.leb_le in H0.
    destruct (Z.eqb_spec t 0); [lia | reflexivity].
  - destruct (cfg_timeout config) as [t|]; [|lia].
    apply andb_true_iff in Ht as [H0 _]. apply Z.leb_le in H0.
    destruct (Z.eqb_spec t 0); lia.
  - destruct (cfg_timeout config) as [t|]; [|lia].
    apply andb_true_iff in Ht as [H0 H1]. apply Z.leb_le in H0, H1.
    destruct (Z.eqb_spec t 0); lia.
Qed.

Lemma newVantigeClient_configuration_witness :
  retries
    (Http.config
       (httpClient
          {| client_auth := Scenario.testAuth;
             httpClient :=
               {| client := Scenario.alwaysSucceed;
                  config :=
                    httpClientConfigOf
                      {| cfg_apiKey :=
                           js "vk_test_abcdefghijklmnopqrstuvwxyz123456";
                         cfg_baseUrl := None; cfg_timeout := None;
                         cfg_retries := Some 0%Z; cfg_debug := None |}
                      Scenario.testAuth |} |}))
  = 3%Z.
Proof.
  apply (proj1 (proj2 (proj2 (proj2
    (@newVantigeClient_configuration ScenarioZod.zod Scenario.alwaysSucceed
       {| cfg_apiKey := js "vk_test_abcdefghijklmnopqrstuvwxyz123456";
          cfg_baseUrl := None; cfg_timeout := None;
          cfg_retries := Some 0%Z; cfg_debug := None |}
       _ eq_refl))))).
Defined.

End ConstructorTheorems.

Section FactoryTheorems.

Lemma newVantigeClient_Return (zod : Zod) (transport : AxiosInstance)
    (config : VantigeConfig) (c : VantigeClient) :
  newVantigeClient zod transport config = Return c ->
  validateAndSetApiKey (cfg_apiKey config) = Return (client_auth c).
Proof.
  unfold newVantigeClient.
  destruct (validateConfig zod config); [discriminate|].
  destruct (validateAndSetApiKey (cfg_apiKey config)); [|discriminate].
  intros [= <-]. reflexivity.
Qed.

Lemma prefixes_exclusive_live (s : jsstring) :
  startsWith s (js "vk_live_") = true ->
  startsWith s (js "vk_test_") = false.
Proof.
  intros H. apply startsWith_stripPrefix in H as [r H].
  apply stripPrefix_Some in H. subst s. reflexivity.
Qed.

(** X19.  The factories test the prefix of their [apiKey] argument before
    anything else: [createTestClient] on a key that does not start with
    [vk_test_], and [createLiveClient] on a key that does not start with
    [vk_live_], throw [INVALID_API_KEY] with their own message whatever
    the options.  The client they build holds [options.apiKey] when the
    options carry one, since the options are spread after the argument,
    and the argument otherwise; only then is its environment the
    factory's. *)
Theorem factories_check_prefix_first
    (zod : Zod) (transport : AxiosInstance) (apiKey : jsstring)
    (options : option PartialConfig) :
  (startsWith apiKey (js "vk_test_") = false ->
   createTestClient zod transport apiKey options
   = Throw (SDKError (createVantigeError INVALID_API_KEY
                        (Some msg_test_client) None JUndefined None)))
  /\ (startsWith apiKey (js "vk_live_") = false ->
      createLiveClient zod transport apiKey options
      = Throw (SDKError (createVantigeError INVALID_API_KEY
                           (Some msg_live_client) None JUndefined None)))
  /\ (forall c,
        createTestClient zod transport apiKey options = Return c
        \/ createLiveClient zod transport apiKey options = Return c
        \/ createVantigeClient zod transport apiKey options = Return c ->
        getApiKey (client_auth c)
        = match optChain options opt_apiKey with
          | Some k => k
          | None => apiKey
          end)
  /\ (forall c,
        optChain options opt_apiKey = None ->
        createTestClient zod transport apiKey options = Return c ->
        getEnvironment (client_auth c) = test)
  /\ (forall c,
        optChain options opt_apiKey = None ->
        createLiveClient zod transport apiKey options = Return c ->
        getEnvironment (client_auth c) = live).
Proof.
  assert (Hkey : forall c,
    newVantigeClient zod transport (spreadOptions apiKey options) = Return c ->
    client_auth c
    = {| Auth.apiKey := match optChain options opt_apiKey with
                        | Some k => k
                        | None => apiKey
                        end;
         isTestKey :=
           startsWith (match optChain options opt_apiKey with
                       | Some k => k
                       | None => apiKey
                       end) (js "vk_test_") |}).
  { intros c Hc. apply newVantigeClient_Return in Hc.
    apply validateAndSetApiKey_Return in Hc as [_ Hc]. rewrite Hc.
    destruct options as [o|]; reflexivity. }
  unfold createTestClient, createLiveClient, createVantigeClient.
  split; [|split; [|split; [|split]]].
  - intros ->. reflexivity.
  - intros ->. reflexivity.
  - intros c [H | [H | H]];
      [destruct (startsWith apiKey (js "vk_test_")); [|discriminate H]
      |destruct (startsWith apiKey (js "vk_live_")); [|discriminate H]
      |];
      cbn [negb] in H; rewrite (Hkey c H); reflexivity.
  - intros c Hopt H.
    destruct (startsWith apiKey (js "vk_test_")) eqn:Et; [|discriminate H].
    cbn [negb] in H. unfold getEnvironment.
    rewrite (Hkey c H), Hopt. cbn [isTestKey]. now rewrite Et.
  - intros c Hopt H.
    destruct (startsWith apiKey (js "vk_live_")) eqn:El; [|discriminate H].
    cbn [negb] in H. unfold getEnvironment.
    rewrite (Hkey c H), Hopt. cbn [isTestKey].
    now rewrite (prefixes_exclusive_live _ El).
Qed.

Lemma factories_check_prefix_first_witness :
  createTestClient ScenarioZod.zod Scenario.alwaysSucceed [] None
  = Throw (SDKError (createVantigeError INVALID_API_KEY
                       (Some msg_test_client) None JUndefined None))
  /\ getEnvironment
       (client_auth
          {| client_auth :=
               {| apiKey := js "vk_live_abcdefghijklmnopqrstuvwxyz123456";
                  isTestKey := false |};
             httpClient :=
               {| client := Scenario.alwaysSucceed;
                  config :=
                    httpClientConfigOf
                      (spreadOptions
                         (js "vk_live_abcdefghijklmnopqrstuvwxyz123456") None)
                      {| apiKey :=
                           js "vk_live_abcdefghijklmnopqrstuvwxyz123456";
                         isTestKey := false |} |} |})
     = live.
Proof.
  split.
  - apply (proj1 (factories_check_prefix_first
                    ScenarioZod.zod Scenario.alwaysSucceed [] None)).
    reflexivity.
  - apply (proj2 (proj2 (proj2 (proj2
      (factories_check_prefix_first
         ScenarioZod.zod Scenario.alwaysSucceed
         (js "vk_live_abcdefghijklmnopqrstuvwxyz123456") None))))).
    + reflexivity.
    + vm_compute. reflexivity.
Defined.

End FactoryTheorems.

Section MessageTheorems.

Lemma ErrorMessages_nonempty (kind : VantigeErrorCode) :
  isEmpty (ErrorMessages kind) = false.
Proof. destruct kind; reflexivity. Qed.

Lemma createVantigeError_message (kind : VantigeErrorCode)
    (msg : option jsstring) (st : option Z) (d : value)
    (rid : option jsstring) :
  message (createVantigeError kind msg st d rid)
  = if strTruthy msg
    then match msg with Some m => m | None => [] end
    else ErrorMessages kind.
Proof.
  unfold createVantigeError, newVantigeSDKError, orStr. cbn [message].
  destruct (strTruthy msg); reflexivity.
Qed.

Lemma strTruthy_Some (x : jsstring) : x <> [] -> strTruthy (Some x) = true.
Proof. destruct x; [congruence | reflexivity]. Qed.

(** X20.  A failure that is a [VantigeSDKError] already passes through
    [handleError] as it is, with the message it has, empty or not.  For
    every other failure, the response body being read through the
    envelope (message and request-id fields are strings when present), the
    message of the classified error is never empty: for a failure with a
    response it is the first non-empty one of the body's [error.message],
    the body's [message] and the axios message, and when all three are
    empty or missing, the default message of the kind.  The request id is
    the body's [meta.requestId] when that is non-empty and the
    [x-request-id] header otherwise. *)
Theorem handleError_message_precedence :
  (forall e : VantigeSDKError, handleError (SDKError e) = e)
  /\ (forall e : AxiosError,
        isEmpty (message (handleError (Axios e))) = false)
  /\ (forall m, isEmpty (message (handleError (Other m))) = false)
  /\ (forall c m r,
        let e := handleError
                   (Axios {| axios_code := c; axios_message := m;
                             response := Some r |}) in
        (forall x, data_error_message (data r) = Some x -> x <> [] ->
                   message e = x)
        /\ (forall x, strTruthy (data_error_message (data r)) = false ->
                      data_message (data r) = Some x -> x <> [] ->
                      message e = x)
        /\ (strTruthy (data_error_message (data r)) = false ->
            strTruthy (data_message (data r)) = false ->
            m <> [] -> message e = m)
        /\ (strTruthy (data_error_message (data r)) = false ->
            strTruthy (data_message (data r)) = false ->
            m = [] ->
            message e = ErrorMessages (Spec.kindOfStatus (status r)))
        /\ (forall x, data_meta_requestId (data r) = Some x -> x <> [] ->
                      requestId e = Some x)
        /\ (strTruthy (data_meta_requestId (data r)) = false ->
            requestId e = header_x_request_id r)).
Proof.
  split; [reflexivity|]. split; [|split].
  - intros [c m [r|]].
    + unfold handleError. cbn [response]. rewrite createVantigeError_message.
      destruct (strTruthy _) eqn:Et; [|apply ErrorMessages_nonempty].
      unfold orStr in *.
      destruct (strTruthy (if strTruthy (data_error_message (data r))
                           then data_error_message (data r)
                           else data_message (data r))) eqn:E1.
      * destruct (strTruthy (data_error_message (data r))) eqn:E2.
        -- destruct (data_error_message (data r)) as [[|]|]; try discriminate.
           reflexivity.
        -- destruct (data_message (data r)) as [[|]|]; try discriminate.
           reflexivity.
      * cbn [axios_message] in *. destruct m; [discriminate | reflexivity].
    + unfold handleError. cbn [response axios_code].
      destruct c as [c|]; [destruct (str_eqb c (js "ECONNABORTED"))|];
        reflexivity.
  - intros m. unfold handleError. rewrite createVantigeError_message.
    destruct (strTruthy _) eqn:Et; [|apply ErrorMessages_nonempty].
    unfold orStr in *. destruct m as [[|]|]; reflexivity.
  - intros c m r e. subst e. unfold handleError. cbn [response axios_message].
    rewrite createVantigeError_message.
    unfold createVantigeError at 1 2, newVantigeSDKError. cbn [requestId].
    unfold orStr.
    split; [|split; [|split; [|split; [|split]]]].
    + intros x Hx Hne. rewrite Hx.
      repeat (rewrite (strTruthy_Some Hne); cbn iota). reflexivity.
    + intros x H1 Hx Hne. rewrite H1, Hx.
      repeat (rewrite (strTruthy_Some Hne); cbn iota). reflexivity.
    + intros H1 H2 Hne. rewrite H1, H2.
      repeat (rewrite (strTruthy_Some Hne); cbn iota). reflexivity.
    + intros H1 H2 ->. rewrite H1, H2. cbn [strTruthy].
      f_equal. apply status_switch_is_fixedTable.
    + intros x Hx Hne. now rewrite Hx, (strTruthy_Some Hne).
    + intros H. now rewrite H.
Qed.

Lemma handleError_message_precedence_witness :
  message
    (handleError
       (Axios {| axios_code := None;
                 axios_message := js "Request failed with status code 429";
                 response :=
                   Some {| status := 429;
                           data := {| data_error_message := None;
                                      data_message := Some (js "Slow down");
                                      data_error_details := JUndefined;
                                      data_details := JUndefined;
                                      data_meta_requestId := None |};
                           header_x_request_id := Some (js "req-1") |} |}))
  = js "Slow down".
Proof.
  apply (proj1 (proj2 (proj2 (proj2 (proj2 handleError_message_precedence))
                         None (js "Request failed with status code 429")
                         {| status := 429;
                            data := {| data_error_message := None;
                                       data_message := Some (js "Slow down");
                                       data_error_details := JUndefined;
                                       data_details := JUndefined;
                                       data_meta_requestId := None |};
                            header_x_request_id := Some (js "req-1") |}))
           (js "Slow down")).
  - reflexivity.
  - reflexivity.
  - discriminate.
Defined.

End MessageTheorems.

Section ToolTheorems.

Lemma trim_empty_iff_no_ink (q : jsstring) :
  trim q = [] <-> Tidy.inked q = [].
Proof.
  rewrite <- (inked_trim q). split; [intros ->; reflexivity|].
  pose proof (trim_no_leading q) as Hlead.
  destruct (trim q) as [|c r]; [reflexivity|].
  simpl in *. destruct (isWhiteSpace c); [discriminate | discriminate].
Qed.

Lemma query_sent_requests (this : VantigeClient) (corpusId : jsstring)
    (params : QueryParams) :
  corpusId <> [] ->
  trim (queryText params) <> [] ->
  (jslength (queryText params) <= 1000)%Z ->
  (forall k, topK params = Some k -> (1 <= k <= 100)%Z) ->
  (0 <= retries (config (httpClient this)))%Z ->
  exists n,
    (Z.of_nat n <= retries (config (httpClient this)))%Z
    /\ Trace.sent (snd (query this corpusId params fresh))
       = List.repeat
           (POST (js "/api/v1/knowledge-base/" ++ corpusId ++ js "/query")
                 (queryParamsValue params))
           (S n).
Proof.
  intros Hid Htrim Hlen Hk Hr.
  rewrite (@query_passes_checks this _ _ Hid Htrim Hlen Hk).
  rewrite andThen_checkSuccess_trace. unfold post.
  destruct (@executeWithRetry_shape (httpClient this)
              (POST (js "/api/v1/knowledge-base/" ++ corpusId ++ js "/query")
                    (queryParamsValue params)) Hr) as (n & Hn & ->).
  exists n. split; [exact Hn|].
  unfold Trace.sent. rewrite flat_map_app.
  match goal with
  | |- List.flat_map ?f (Spec.failedAttempts ?r 0 n) ++ _ = _ =>
      change (List.flat_map f (Spec.failedAttempts r 0 n))
        with (Trace.sent (Spec.failedAttempts r 0 n))
  end.
  rewrite sent_failedAttempts. cbn [List.flat_map app].
  rewrite <- repeat_cons. reflexivity.
Qed.

(** X21.  A simplified tool sends the query text and nothing else.  For a
    text [validateQueryLength] accepts (1 to 1000 units) and a non-empty
    knowledge-base id, with a budget [retries >= 0]: a text of whitespace
    only is refused with "Query is required" before any request, so
    [validateQueryLength] alone does not tell that [query] will accept;
    any other text is sent as it is; and its [sanitizeQuery] form is
    always accepted and sent too. *)
Theorem simplified_tool_and_query_helpers (client : VantigeClient)
    (kbId q : jsstring) :
  kbId <> [] ->
  validateQueryLength q = true ->
  (0 <= retries (config (httpClient client)))%Z ->
  (Tidy.inked q = [] ->
   simplifiedExecute client kbId q fresh
   = (Throw (validationError (js "Query is required")), fresh))
  /\ (Tidy.inked q <> [] ->
      exists n,
        (Z.of_nat n <= retries (config (httpClient client)))%Z
        /\ Trace.sent (snd (simplifiedExecute client kbId q fresh))
           = List.repeat
               (POST (js "/api/v1/knowledge-base/" ++ kbId ++ js "/query")
                     (JObj [(js "query", JStr q)]))
               (S n))
  /\ (Tidy.inked q <> [] ->
      exists n,
        (Z.of_nat n <= retries (config (httpClient client)))%Z
        /\ Trace.sent
             (snd (simplifiedExecute client kbId (sanitizeQuery q) fresh))
           = List.repeat
               (POST (js "/api/v1/knowledge-base/" ++ kbId ++ js "/query")
                     (JObj [(js "query", JStr (sanitizeQuery q))]))
               (S n)).
Proof.
  intros Hid Hlen Hr. unfold validateQueryLength in Hlen.
  apply andb_true_iff in Hlen as [_ Hmax]. apply Z.leb_le in Hmax.
  unfold simplifiedExecute.
  split; [|split].
  - intros Hink. apply trim_empty_iff_no_ink in Hink.
    unfold query. cbn [queryText]. rewrite (isEmpty_false Hid), Hink.
    cbn. now rewrite orb_true_r.
  - intros Hink.
    apply query_sent_requests; cbn [queryText topK]; auto; try discriminate.
    intros Ht. apply Hink, trim_empty_iff_no_ink, Ht.
  - intros Hink.
    assert (Hsan : Tidy.inked (sanitizeQuery q) <> []).
    { unfold sanitizeQuery, replaceWhiteSpaceRuns.
      now rewrite inked_collapseFrom, inked_trim. }
    apply query_sent_requests; cbn [queryText topK]; auto; try discriminate.
    + intros Ht. apply Hsan, trim_empty_iff_no_ink, Ht.
    + pose proof (trim_length q).
      pose proof (collapseFrom_length false (trim q)).
      unfold sanitizeQuery, replaceWhiteSpaceRuns, jslength in *. lia.
Qed.

Lemma simplified_tool_and_query_helpers_witness :
  simplifiedExecute
    {| client_auth := Scenario.testAuth;
       httpClient := Scenario.httpClientWith Scenario.alwaysSucceed 3 |}
    (js "2makgyrXV6") (js "   ") fresh
  = (Throw (validationError (js "Query is required")), fresh)
  /\ exists n,
       (Z.of_nat n <= 3)%Z
       /\ Trace.sent
            (snd (simplifiedExecute
                    {| client_auth := Scenario.testAuth;
                       httpClient :=
                         Scenario.httpClientWith Scenario.alwaysSucceed 3 |}
                    (js "2makgyrXV6") (sanitizeQuery (js " a   b ")) fresh))
          = List.repeat
              (POST (js "/api/v1/knowledge-base/" ++ js "2makgyrXV6"
                     ++ js "/query")
                    (JObj [(js "query", JStr (sanitizeQuery (js " a   b ")))]))
              (S n).
Proof.
  split.
  - apply (proj1
      (@simplified_tool_and_query_helpers
         {| client_auth := Scenario.testAuth;
            httpClient := Scenario.httpClientWith Scenario.alwaysSucceed 3 |}
         (js "2makgyrXV6") (js "   ")
         ltac:(discriminate) eq_refl ltac:(vm_compute; discriminate))).
    reflexivity.
  - apply (proj2 (proj2
      (@simplified_tool_and_query_helpers
         {| client_auth := Scenario.testAuth;
            httpClient := Scenario.httpClientWith Scenario.alwaysSucceed 3 |}
         (js "2makgyrXV6") (js " a   b ")
         ltac:(discriminate) eq_refl ltac:(vm_compute; discriminate)))).
    vm_compute. discriminate.
Defined.

End ToolTheorems.

Section ToolRemarks.

(** The full tool hands [client.query] a copy of its params. *)
Remark fullExecute_forwards (client : VantigeClient) (kbId : jsstring)
    (params : QueryParams) :
  fullExecute client kbId params = query client kbId params.
Proof.
  unfold fullExecute. f_equal.
  destruct params as [q [k|] [m|] [g|] [f|]]; reflexivity.
Qed.

End ToolRemarks.
